(** * pjpawel/runner: the command execution and error-strategy engine

    A shallow embedding of the two copies of the engine that live in the
    repository,

      - [Base]      : src/runner_pjpawel/command/base.py
      - [CommandPy] : src/runner_pjpawel/command.py

    Python code that mutates the process-wide Counter, or that raises, is
    written in a state-and-exception monad [M]: a computation takes the
    world and gives back how it ended (returned, raised, or ran out of the
    fuel that bounds the model's loops) together with the world it left
    behind.  Logging and the diagnostic Timer never influence control
    flow and are left out. *)

From Stdlib Require Import ZArith List Ascii String Bool Lia DecimalString.
Import ListNotations.

Open Scope string_scope.
Open Scope Z_scope.

(** ** Outcome model *)

(** [class CommandResultLevel(IntEnum)] *)
Inductive CommandResultLevel : Type := OK | ERROR | CRITICAL.

(** [class ErrorStrategy(StrEnum)] *)
Inductive ErrorStrategy : Type := RESTART | STOP | OMIT.

(** Instances of [Exception] other than [RunnerRuntimeError].  The
    built-in ones are those the interpreter itself raises in this code;
    [UserException] stands for whatever a [_do_work] of the user raises. *)
Inductive PyException : Type :=
| TypeError (what : string)
| AttributeError (what : string)
| IndexError (what : string)
| ValueError (what : string)
| UserException (name : string).

(** The opaque diagnostic values the code stores in [additional_info]. *)
Inductive PyValue : Type :=
| PyStr (s : string)
| PyExc (e : PyException)
| PySelf.

(** [additional_info] is a list everywhere but in the "Cannot run process"
    result, where the code passes the dict [{"command": self}]. *)
Inductive AdditionalInfo : Type :=
| InfoList (items : list PyValue)
| InfoDict (items : list (string * PyValue)).

(** [class CommandResult] *)
Record CommandResult : Type := mkCommandResult {
  level : CommandResultLevel;
  msg : option string;
  additional_info : AdditionalInfo
}.

(** [CommandResult.__init__]: an absent [additional_info] becomes [[]]. *)
Definition CommandResult_init (lv : CommandResultLevel) (m : option string)
    (info : option AdditionalInfo) : CommandResult :=
  mkCommandResult lv m
    (match info with None => InfoList [] | Some i => i end).

Definition new_ok (m : option string) (info : option AdditionalInfo) :=
  CommandResult_init OK m info.

Definition new_error (m : option string) (info : option AdditionalInfo) :=
  CommandResult_init ERROR m info.

Definition new_critical (m : option string) (info : option AdditionalInfo) :=
  CommandResult_init CRITICAL m info.

(** What is raised without being an [Exception]: the classes that
    derive from [BaseException] directly.  No [except Exception] clause
    catches them. *)
Inductive PyBaseException : Type :=
| SystemExit
| KeyboardInterrupt
| GeneratorExit.

(** What a [raise] carries: [RunnerRuntimeError(result, retry)], another
    instance of [Exception], or a fault that is no [Exception]. *)
Inductive Fault : Type :=
| RunnerRuntimeError (result : CommandResult) (retry : Z)
| PyRaise (e : PyException)
| PyBaseRaise (b : PyBaseException).

(** ** The world and the monad *)

(** Modelled from the spec: the Counter of [runner_pjpawel/counter.py] is
    not among the sources; the spec gives it as a process-wide monotonic
    counter with [increment()] and [get_count()].  [iteration_of] holds
    the [iteration] attribute of the group objects, by object identity;
    [ext] is everything else a [_do_work] may read or change. *)
Record World (St : Type) : Type := mkWorld {
  counter : Z;
  iteration_of : nat -> Z;
  ext : St
}.

Arguments mkWorld {St} _ _ _.
Arguments counter {St} _.
Arguments iteration_of {St} _.
Arguments ext {St} _.

(** How a call ended. *)
Inductive Res (A : Type) : Type :=
| Returns (a : A)
| Raises (f : Fault)
| OutOfFuel.

Arguments Returns {A} _.
Arguments Raises {A} _.
Arguments OutOfFuel {A}.

Definition M (St A : Type) : Type := World St -> Res A * World St.

Section Monad.
Context {St : Type}.

Definition ret {A} (a : A) : M St A := fun w => (Returns a, w).

Definition raise {A} (f : Fault) : M St A := fun w => (Raises f, w).

Definition out_of_fuel {A} : M St A := fun w => (OutOfFuel, w).

Definition bind {A B} (m : M St A) (k : A -> M St B) : M St B :=
  fun w =>
    match m w with
    | (Returns a, w') => k a w'
    | (Raises f, w') => (Raises f, w')
    | (OutOfFuel, w') => (OutOfFuel, w')
    end.

(** [try: body / except ... as f: handler f].  The handler decides per
    fault; a handler that re-raises is written [raise f]. *)
Definition try_except {A} (body : M St A) (handler : Fault -> M St A)
    : M St A :=
  fun w =>
    match body w with
    | (Raises f, w') => handler f w'
    | other => other
    end.

(** [Counter.increment()] *)
Definition Counter_increment : M St unit :=
  fun w => (Returns tt, mkWorld (counter w + 1) (iteration_of w) (ext w)).

(** [self.iteration += 1] on the object [self_id] *)
Definition bump_iteration (self_id : nat) : M St unit :=
  fun w =>
    (Returns tt,
     mkWorld (counter w)
       (fun o => if Nat.eqb o self_id
                 then iteration_of w o + 1 else iteration_of w o)
       (ext w)).
End Monad.

Notation "x <- c1 ;; c2" := (bind c1 (fun x => c2))
  (at level 61, c1 at next level, right associativity).
Notation "c1 ;;; c2" := (bind c1 (fun _ => c2))
  (at level 61, right associativity).

(** Did the call raise? *)
Definition raised {A} (r : Res A) : bool :=
  match r with Raises _ => true | _ => false end.

(** The coercion both engines apply to a fault caught around [_do_work]:
    [CommandResult(CommandResultLevel.ERROR, "Unexcepted exception caught", [e])]. *)
Definition caught (e : PyException) : CommandResult :=
  CommandResult_init ERROR (Some "Unexcepted exception caught")
    (Some (InfoList [PyExc e])).

(** The result built when the attempts are used up:
    [CommandResult.new_critical("Cannot run process. ", {"command": self})]. *)
Definition cannot_run : CommandResult :=
  new_critical (Some "Cannot run process. ")
    (Some (InfoDict [("command", PySelf)])).

(** ** Command objects *)

(** A command object as its owner sees it: the attributes other code
    reads and the methods other code calls.  [number_of_works] is [None]
    while no code has set that attribute on the object ([number_of_works:
    int] in the class body is an annotation, it creates nothing).  Every
    method that can loop takes the fuel of the model. *)
Module Obj.
Record Command (St : Type) : Type := mkCommand {
  number_of_works : option Z;
  error_strategy : ErrorStrategy;
  process : nat -> M St (option CommandResult);
  get_number_of_works : Res Z
}.
Arguments mkCommand {St} _ _ _ _.
Arguments number_of_works {St} _.
Arguments error_strategy {St} _.
Arguments process {St} _ _ _.
Arguments get_number_of_works {St} _.
End Obj.

(** The keyword arguments the constructors look at. *)
Record Kwargs : Type := mkKwargs {
  kw_number_of_works : option Z;
  kw_error_strategy : option string
}.

Definition no_kwargs : Kwargs := mkKwargs None None.

Definition Res_bind {A B} (r : Res A) (k : A -> Res B) : Res B :=
  match r with
  | Returns a => k a
  | Raises f => Raises f
  | OutOfFuel => OutOfFuel
  end.

(** [str.lower()] on the ASCII letters *)
Definition lower_ascii (c : Ascii.ascii) : Ascii.ascii :=
  let n := Ascii.nat_of_ascii c in
  if (Nat.leb 65 n && Nat.leb n 90)%bool
  then Ascii.ascii_of_nat (n + 32) else c.

Fixpoint lower (s : string) : string :=
  match s with
  | EmptyString => EmptyString
  | String c s' => String (lower_ascii c) (lower s')
  end.

(** [ErrorStrategy(value)]: the members of the [StrEnum] are named by
    [auto()], that is by their lower-cased names. *)
Definition ErrorStrategy_of_value (v : string) : Res ErrorStrategy :=
  if String.eqb v "restart" then Returns RESTART
  else if String.eqb v "stop" then Returns STOP
  else if String.eqb v "omit" then Returns OMIT
  else Raises (PyRaise (ValueError "not a valid ErrorStrategy")).

(** [command.number_of_works], an attribute read *)
Definition getattr_number_of_works {St} (c : Obj.Command St) : Res Z :=
  match Obj.number_of_works c with
  | Some n => Returns n
  | None =>
      Raises (PyRaise (AttributeError
        "object has no attribute 'number_of_works'"))
  end.

(** [sum(command.number_of_works for command in commands)] *)
Fixpoint sum_number_of_works {St} (commands : list (Obj.Command St))
    (acc : Z) : Res Z :=
  match commands with
  | [] => Returns acc
  | c :: rest =>
      Res_bind (getattr_number_of_works c)
        (fun n => sum_number_of_works rest (acc + n))
  end.

(** [commands[i]] *)
Definition getitem {St A} (l : list A) (i : Z) : M St A :=
  let j := if i <? 0 then i + Z.of_nat (List.length l) else i in
  if j <? 0 then raise (PyRaise (IndexError "list index out of range"))
  else
    match nth_error l (Z.to_nat j) with
    | Some a => ret a
    | None => raise (PyRaise (IndexError "list index out of range"))
    end.

(** ** The command classes whose text is the same in both files *)
Module Shared.

(** [class ShellCommand] *)
Module ShellCommand.
Section Shell.
Context {St : Type}.

(** [subprocess.Popen(cmd, cwd=cwd, ...)] followed by
    [process.communicate()]: the exit code, the captured standard
    output and the captured error stream of the external action, or
    the fault of a launch that failed. *)
Variable Popen_communicate :
  list string -> option string -> M St (Z * string * string).

Variable cmd : list string.
Variable cwd : option string.

Definition _do_work : M St (option CommandResult) :=
  out <- Popen_communicate cmd cwd ;;
  let '(returncode, stdout, stderr) := out in
  let level := if returncode =? 0 then OK else ERROR in
  ret (Some (CommandResult_init level (Some stdout)
               (Some (InfoList [PyStr stderr])))).
End Shell.
End ShellCommand.

(** [class GroupCommand] *)
Module GroupCommand.
Section Group.
Context {St : Type}.
Variable self_id : nat.
Variable commands : list (Obj.Command St).
Variable reset_callback :
  option (Obj.Command St -> CommandResult -> M St (option (Obj.Command St))).
Variable error_strategy : ErrorStrategy.

(** [def get_number_of_works(self)] *)
Definition get_number_of_works : Res Z := sum_number_of_works commands 0.

(** [while i < len(self.commands): self.commands[i].process()]; the
    body leaves [i] as it is. *)
Fixpoint while_loop (fuel : nat) (i : Z) : M St unit :=
  match fuel with
  | O => out_of_fuel
  | S fuel' =>
      if i <? Z.of_nat (List.length commands) then
        c <- getitem commands i ;;
        Obj.process c fuel' ;;;
        while_loop fuel' i
      else ret tt
  end.

(** [def _do_work(self)].  The restart is a call of [self._do_work()]
    inside the handler; the fuel bounds how often the model follows it,
    the stack of the interpreter, which a long chain of restarts
    exhausts, is not part of the model. *)
Fixpoint _do_work (fuel : nat) : M St (option CommandResult) :=
  match fuel with
  | O => out_of_fuel
  | S fuel' =>
      let i := 0 in
      try_except
        (while_loop fuel' i ;;; ret None)
        (fun rre =>
           match rre with
           | RunnerRuntimeError result _ =>
               match reset_callback with
               | Some callback =>
                   c <- getitem commands i ;;
                   command <- callback c result ;;
                   match command with
                   | Some c' => Obj.process c' fuel' ;;; ret tt
                   | None => ret tt
                   end
               | None => ret tt
               end ;;;
               match error_strategy with
               | OMIT => ret None
               | STOP => raise rre
               | RESTART =>
                   bump_iteration self_id ;;;
                   _do_work fuel' ;;;
                   ret None
               end
           | PyRaise _ => raise rre
           | PyBaseRaise _ => raise rre
           end)
  end.
End Group.
End GroupCommand.

(** [class ParallelCommand(GroupCommand)] *)
Module ParallelCommand.
Section Parallel.
Context {St : Type}.
Variable commands : list (Obj.Command St).

(** [threading.Thread(target=...)] running its target: whatever the
    target returns is dropped and a fault that leaves it is handed to
    [threading.excepthook], which reports it and lets the thread end;
    nothing of either reaches the thread that joins.  A target that
    never ends keeps [join()] waiting. *)
Definition Thread_run {A} (target : M St A) : M St unit :=
  fun w =>
    match target w with
    | (OutOfFuel, w') => (OutOfFuel, w')
    | (_, w') => (Returns tt, w')
    end.

(** The workers between the loop that starts them and the loop that
    joins them.  The children are opaque, so the interleaving is
    taken at the grain of whole [process()] calls: [schedule] lists
    the children in the order their effects reach the world. *)
Fixpoint run_workers (fuel : nat) (schedule : list nat) : M St unit :=
  match schedule with
  | [] => ret tt
  | k :: rest =>
      match nth_error commands k with
      | Some c => Thread_run (Obj.process c fuel) ;;; run_workers fuel rest
      | None => run_workers fuel rest
      end
  end.

(** [def _do_work(self)]: start one thread per child, join them all,
    fall off the end. *)
Definition _do_work (schedule : list nat) (fuel : nat)
    : M St (option CommandResult) :=
  run_workers fuel schedule ;;; ret None.
End Parallel.
End ParallelCommand.

(** [class CyclicCommand] *)
Module CyclicCommand.
Section Cyclic.
Context {St : Type}.
Variable command : Obj.Command St.
Variable cycles : Z.

(** [for _ in range(n): body] *)
Fixpoint for_range (n : nat) (body : M St unit) : M St unit :=
  match n with
  | O => ret tt
  | S n' => body ;;; for_range n' body
  end.

(** [def _do_work(self)] *)
Definition _do_work (fuel : nat) : M St (option CommandResult) :=
  for_range (Z.to_nat cycles) (Obj.process command fuel ;;; ret tt) ;;;
  ret None.
End Cyclic.
End CyclicCommand.

End Shared.

(** ** command/base.py *)
Module Base.

Module BaseCommand.
Section Engine.
Context {St : Type}.
Variable error_strategy : ErrorStrategy.
Variable _do_work : M St (option CommandResult).

(** [self._increment_counter()] *)
Definition _increment_counter : M St unit := Counter_increment.

(** A call of [self.process] with the positional arguments [args].
    [def process(self)] takes none: with one the interpreter raises
    [TypeError] before the body runs.  The body is
    [self._do_process()], whose value is dropped: [process] has no
    [return].  [dp] is the bound method [_do_process]. *)
Definition process_call (dp : Z -> M St (option CommandResult))
    (args : list Z) : M St (option CommandResult) :=
  match args with
  | [] => dp 1 ;;; ret None
  | _ :: _ =>
      raise (PyRaise (TypeError
        "BaseCommand.process() takes 1 positional argument but 2 were given"))
  end.

(** The [try] statement of [_do_process] and the [result] it leaves:
    what [_do_work] returned, [new_ok()] in place of [None], the
    coerced fault of the [except Exception] clause; a
    [RunnerRuntimeError] goes on up, and so does what no clause
    catches. *)
Definition attempt : M St CommandResult :=
  try_except
    (r <- _do_work ;;
     ret (match r with None => new_ok None None | Some r' => r' end))
    (fun f =>
       match f with
       | RunnerRuntimeError _ _ => raise f
       | PyRaise e => ret (caught e)
       | PyBaseRaise _ => raise f
       end).

(** [def _do_process(self, iteration: int = 1)] *)
Fixpoint _do_process (fuel : nat) (iteration : Z)
    : M St (option CommandResult) :=
  match fuel with
  | O => out_of_fuel
  | S fuel' =>
      if iteration >? 3 then ret (Some cannot_run)
      else
        result <- attempt ;;
        match level result with
        | OK => _increment_counter ;;; ret (Some result)
        | ERROR =>
            match error_strategy with
            | OMIT => ret (Some result)
            | RESTART => process_call (_do_process fuel') [iteration + 1]
            | STOP => ret (Some result)
            end
        | CRITICAL => raise (RunnerRuntimeError result iteration)
        end
  end.

(** [def process(self)] *)
Definition process (fuel : nat) : M St (option CommandResult) :=
  process_call (_do_process fuel) [].
End Engine.

(** [BaseCommand.__init__]: of the attributes it sets the model
    keeps [error_strategy]; it never reads a "number_of_works" keyword
    and sets no such attribute. *)
Definition __init__ (kwargs : Kwargs) : Res ErrorStrategy :=
  ErrorStrategy_of_value
    (lower (match kw_error_strategy kwargs with
            | Some v => v
            | None => "stop"
            end)).

(** [def get_number_of_works(self)] of [BaseCommand] *)
Definition get_number_of_works : Res Z := Returns 1.

(** An instance of a class derived from [BaseCommand], given the
    [_do_work] and the [get_number_of_works] its class ends up with. *)
Definition instance {St} (kwargs : Kwargs)
    (_do_work : ErrorStrategy -> nat -> M St (option CommandResult))
    (gnw : Res Z) : Res (Obj.Command St) :=
  Res_bind (__init__ kwargs) (fun strategy =>
    Returns (Obj.mkCommand None strategy
               (fun fuel => process strategy (_do_work strategy fuel) fuel)
               gnw)).
End BaseCommand.

(** [class ThreadCommand] *)
Module ThreadCommand.

(** What the model keeps of the callable handed to the worker: the time
    it needs ([None]: it never returns) and what it does to the world
    once it has run.  A fault that leaves the callable ends the worker
    like a return does. *)
Record Callable (St : Type) : Type := mkCallable {
  needs : option Z;
  effect : World St -> World St
}.
Arguments mkCallable {St} _ _.
Arguments needs {St} _.
Arguments effect {St} _.

Inductive ThreadState : Type := Alive | Finished.

Definition is_alive (t : ThreadState) : bool :=
  match t with Alive => true | Finished => false end.

(** [thread.join(timeout)] and the state it leaves the thread in; [None]
    when the join itself never returns.  A timeout below zero waits as
    long as zero does. *)
Definition join (needs : option Z) (timeout : option Z)
    : option ThreadState :=
  match timeout with
  | None =>
      match needs with
      | Some _ => Some Finished
      | None => None
      end
  | Some t =>
      match needs with
      | Some d => if d <=? Z.max t 0 then Some Finished else Some Alive
      | None => Some Alive
      end
  end.

(** [def _do_work(self)], together with the thread it leaves behind *)
Definition _do_work_thread (needs timeout : option Z)
    : option (CommandResult * ThreadState) :=
  match join needs timeout with
  | None => None
  | Some thread =>
      if is_alive thread
      then Some (new_error (Some "Thread timeout") None, thread)
      else Some (new_ok None None, thread)
  end.

Definition _do_work {St} (cmd : Callable St) (timeout : option Z)
    : M St (option CommandResult) :=
  fun w =>
    match _do_work_thread (needs cmd) timeout with
    | None => (OutOfFuel, w)
    | Some (result, Alive) => (Returns (Some result), w)
    | Some (result, Finished) => (Returns (Some result), effect cmd w)
    end.
End ThreadCommand.

(** The constructors: [ShellCommand(cmd, cwd, ...)] and the like, with their keyword arguments. *)
Section Constructors.
Context {St : Type}.

Definition ShellCommand
    (Popen_communicate : list string -> option string -> M St (Z * string * string))
    (cmd : list string) (cwd : option string) (kwargs : Kwargs)
    : Res (Obj.Command St) :=
  BaseCommand.instance kwargs
    (fun _ _ => Shared.ShellCommand._do_work Popen_communicate cmd cwd)
    BaseCommand.get_number_of_works.

Definition GroupCommand (self_id : nat)
    (commands : option (list (Obj.Command St)))
    (reset_callback :
       option (Obj.Command St -> CommandResult -> M St (option (Obj.Command St))))
    (kwargs : Kwargs) : Res (Obj.Command St) :=
  let commands := match commands with None => [] | Some l => l end in
  BaseCommand.instance kwargs
    (Shared.GroupCommand._do_work self_id commands reset_callback)
    (Shared.GroupCommand.get_number_of_works commands).

(** [if kwargs.get("number_of_works") is not None:
       kwargs["number_of_works"] = sum(...)] *)
Definition ParallelCommand (schedule : list nat)
    (commands : list (Obj.Command St)) (kwargs : Kwargs)
    : Res (Obj.Command St) :=
  Res_bind
    (match kw_number_of_works kwargs with
     | Some _ =>
         Res_bind (sum_number_of_works commands 0) (fun n =>
           Returns (mkKwargs (Some n) (kw_error_strategy kwargs)))
     | None => Returns kwargs
     end)
    (fun kwargs =>
       BaseCommand.instance kwargs
         (fun _ => Shared.ParallelCommand._do_work commands schedule)
         (Shared.GroupCommand.get_number_of_works commands)).

(** [if kwargs.get("number_of_works") is not None:
       kwargs["number_of_works"] = command.number_of_works * cycles] *)
Definition CyclicCommand (command : Obj.Command St) (cycles : Z)
    (kwargs : Kwargs) : Res (Obj.Command St) :=
  Res_bind
    (match kw_number_of_works kwargs with
     | Some _ =>
         Res_bind (getattr_number_of_works command) (fun n =>
           Returns (mkKwargs (Some (n * cycles)) (kw_error_strategy kwargs)))
     | None => Returns kwargs
     end)
    (fun kwargs =>
       BaseCommand.instance kwargs
         (fun _ => Shared.CyclicCommand._do_work command cycles)
         BaseCommand.get_number_of_works).

Definition ThreadCommand (command : ThreadCommand.Callable St)
    (timeout : option Z) (kwargs : Kwargs) : Res (Obj.Command St) :=
  BaseCommand.instance kwargs
    (fun _ _ => ThreadCommand._do_work command timeout)
    BaseCommand.get_number_of_works.
End Constructors.

End Base.

(** ** command.py *)
Module CommandPy.

Module BaseCommand.
Section Engine.
Context {St : Type}.
Variable error_strategy : ErrorStrategy.
Variable _do_work : M St (option CommandResult).

Definition _increment_counter : M St unit := Counter_increment.

(** The [try] statement inside the loop and the [result] it leaves;
    nothing here replaces a [None]. *)
Definition attempt : M St (option CommandResult) :=
  try_except _do_work
    (fun f =>
       match f with
       | RunnerRuntimeError _ _ => raise f
       | PyRaise e => ret (Some (caught e))
       | PyBaseRaise _ => raise f
       end).

(** The [while i <= 3] loop of [process], with the locals [result] and
    [i], and what follows the loop.  [match result.level] on a [None]
    is an attribute access on [None]. *)
Fixpoint process_loop (fuel : nat) (result : option CommandResult)
    (i : Z) : M St (option CommandResult) :=
  match fuel with
  | O => out_of_fuel
  | S fuel' =>
      if i <=? 3 then
        result' <- attempt ;;
        match result' with
        | None =>
            raise (PyRaise (AttributeError
              "'NoneType' object has no attribute 'level'"))
        | Some r =>
            match level r with
            | OK => _increment_counter ;;; ret (Some r)
            | ERROR =>
                match error_strategy with
                | OMIT => ret (Some r)
                | RESTART => process_loop fuel' (Some r) (i + 1)
                | STOP => ret (Some r)
                end
            | CRITICAL => raise (RunnerRuntimeError r i)
            end
        end
      else
        match result with
        | None => ret (Some cannot_run)
        | Some r => ret (Some r)
        end
  end.

(** [def process(self)] *)
Definition process (fuel : nat) : M St (option CommandResult) :=
  process_loop fuel None 1.
End Engine.

(** [BaseCommand.__init__] *)
Definition __init__ (kwargs : Kwargs) : Res ErrorStrategy :=
  ErrorStrategy_of_value
    (lower (match kw_error_strategy kwargs with
            | Some v => v
            | None => "stop"
            end)).

Definition get_number_of_works : Res Z := Returns 1.

Definition instance {St} (kwargs : Kwargs)
    (_do_work : ErrorStrategy -> nat -> M St (option CommandResult))
    (gnw : Res Z) : Res (Obj.Command St) :=
  Res_bind (__init__ kwargs) (fun strategy =>
    Returns (Obj.mkCommand None strategy
               (fun fuel => process strategy (_do_work strategy fuel) fuel)
               gnw)).
End BaseCommand.

End CommandPy.

(** ** Commands used to exercise the engine *)

(** tests/test_command/util.py, [class RuntimeExceptionCommand]:
    [raise RunnerRuntimeError(CommandResult.new_error(), 5)] *)
Module TestUtil.
Definition RuntimeExceptionCommand_do_work {St}
    : M St (option CommandResult) :=
  raise (RunnerRuntimeError (new_error None None) 5).
End TestUtil.

(** A world with a fresh Counter. *)
Definition fresh {St} (s : St) : World St := mkWorld 0 (fun _ => 0) s.

(** A [_do_work] that plays a script: each call hands out the next
    outcome of the list and counts itself.  The state is the script left
    and the number of calls made. *)
Definition Script : Type := (list (Res (option CommandResult)) * nat)%type.

Definition scripted : M Script (option CommandResult) :=
  fun w =>
    let '(script, calls) := ext w in
    match script with
    | [] =>
        (Raises (PyRaise (UserException "script exhausted")),
         mkWorld (counter w) (iteration_of w) ([], S calls))
    | o :: rest =>
        (o, mkWorld (counter w) (iteration_of w) (rest, S calls))
    end.

(** A [_do_work] that writes its name into a log and reports success. *)
Definition logging (k : nat) : M (list nat) (option CommandResult) :=
  fun w =>
    (Returns (Some (new_ok None None)),
     mkWorld (counter w) (iteration_of w) (ext w ++ [k])%list).

(** The same as a child object of [command/base.py]. *)
Definition logging_child (k : nat) : Obj.Command (list nat) :=
  Obj.mkCommand None STOP
    (fun fuel => Base.BaseCommand.process STOP (logging k) fuel)
    Base.BaseCommand.get_number_of_works.

(** The reading "[process()] raises exactly when the outcome it
    dispatches on is CRITICAL", for one call of each engine. *)
Definition Base_raises_iff_critical {St} (strategy : ErrorStrategy)
    (do_work : M St (option CommandResult)) (fuel : nat) (w : World St)
    : Prop :=
  raised (fst (Base.BaseCommand.process strategy do_work fuel w)) = true <->
  exists r, fst (Base.BaseCommand.attempt do_work w) = Returns r
            /\ level r = CRITICAL.

Definition CommandPy_raises_iff_critical {St} (strategy : ErrorStrategy)
    (do_work : M St (option CommandResult)) (fuel : nat) (w : World St)
    : Prop :=
  raised (fst (CommandPy.BaseCommand.process strategy do_work fuel w)) = true <->
  exists r, fst (CommandPy.BaseCommand.attempt do_work w) = Returns (Some r)
            /\ level r = CRITICAL.

(** "Same returned result level or same raised fault". *)
Definition same_outcome (a b : Res (option CommandResult)) : Prop :=
  match a, b with
  | Returns (Some r1), Returns (Some r2) => level r1 = level r2
  | Returns None, Returns None => True
  | Raises f1, Raises f2 => f1 = f2
  | OutOfFuel, OutOfFuel => True
  | _, _ => False
  end.

(** No restart is due after the first attempt in [w]: the outcome
    dispatched there is not an ERROR under the restart strategy. *)
Definition settles {St} (strategy : ErrorStrategy)
    (do_work : M St (option CommandResult)) (w : World St) : Prop :=
  forall r, fst (Base.BaseCommand.attempt do_work w) = Returns r ->
            level r = ERROR -> strategy <> RESTART.

(** A [_do_work] that reports a fatal outcome. *)
Definition failing_do_work : M unit (option CommandResult) :=
  ret (Some (new_critical (Some "disk full") None)).

(** A [_do_work] that always reports a recoverable error. *)
Definition always_error {St} : M St (option CommandResult) :=
  ret (Some (new_error None None)).

(** The script "ERROR, ERROR, OK". *)
Definition error_error_ok : Script :=
  ([Returns (Some (new_error None None));
    Returns (Some (new_error None None));
    Returns (Some (new_ok None None))], O).

(** The fault of [return self.process(iteration + 1)]. *)
Definition process_arity_fault : Fault :=
  PyRaise (TypeError
    "BaseCommand.process() takes 1 positional argument but 2 were given").

(** The fault of [match result.level] on a missing result. *)
Definition none_level_fault : Fault :=
  PyRaise (AttributeError "'NoneType' object has no attribute 'level'").

(** Any [_do_work], made to count its own calls next to its state. *)
Definition counted {St A} (m : M St A) : M (St * nat) A :=
  fun w =>
    let '(r, w') := m (mkWorld (counter w) (iteration_of w) (fst (ext w))) in
    (r, mkWorld (counter w') (iteration_of w') (ext w', S (snd (ext w)))).

Definition calls {St} (w : World (St * nat)) : nat := snd (ext w).

(** A shell command that succeeds at once, as a leaf to build on. *)
Definition quiet_Popen : list string -> option string -> M unit (Z * string * string) :=
  fun _ _ => ret (0, "", "").

(** The fault of reading [number_of_works] off a command. *)
Definition no_number_of_works : Fault :=
  PyRaise (AttributeError "object has no attribute 'number_of_works'").

(** The command of tests/test_command/util.py as a child object. *)
Definition RuntimeExceptionCommand : Obj.Command unit :=
  Obj.mkCommand None STOP
    (fun fuel =>
       Base.BaseCommand.process STOP TestUtil.RuntimeExceptionCommand_do_work fuel)
    Base.BaseCommand.get_number_of_works.

(** A launch that exits with code 2 and something on both streams. *)
Definition failing_Popen : list string -> option string -> M unit (Z * string * string) :=
  fun _ _ => ret (2, "partial output", "No such file or directory").

(** A callable that never returns. *)
Definition sleeps_forever : Base.ThreadCommand.Callable unit :=
  Base.ThreadCommand.mkCallable None (fun w => w).

(** Take the hypotheses of a goal apart. *)
Ltac break_hyps :=
  repeat match goal with
         | H : _ \/ _ |- _ => destruct H
         | H : exists _, _ |- _ => destruct H
         | H : _ /\ _ |- _ => destruct H
         | H : Returns _ = Returns _ |- _ => injection H as H; subst
         | H : Raises _ = Raises _ |- _ => injection H as H; subst
         | H : RunnerRuntimeError _ _ = RunnerRuntimeError _ _ |- _ =>
             injection H as H; subst
         | H : Some _ = Some _ |- _ => injection H as H; subst
         end.

(** ** More of the two files *)

(** The value of a member of [ErrorStrategy]: in a [StrEnum], [auto()]
    gives the lower-cased name of the member. *)
Definition strategy_value (s : ErrorStrategy) : string :=
  match s with
  | RESTART => "restart"
  | STOP => "stop"
  | OMIT => "omit"
  end.

(** [GroupCommand.add_command] and [GroupCommand.set_commands], as what
    they do to the contents of [self.commands]. *)
Definition add_command {St} (commands : list (Obj.Command St))
    (command : Obj.Command St) : list (Obj.Command St) :=
  (commands ++ [command])%list.

Definition set_commands {St} (old commands : list (Obj.Command St))
    : list (Obj.Command St) :=
  commands.

(** The sum of the [number_of_works] attributes that are there. *)
Definition declared_works {St} (commands : list (Obj.Command St)) : Z :=
  fold_right
    (fun c acc =>
       match Obj.number_of_works c with Some n => n | None => 0 end + acc)
    0 commands.

(** command.py, [ThreadCommand._do_work]: start the thread, [join()] with
    no timeout, fall off the end. *)
Definition CommandPy_ThreadCommand_do_work {St}
    (cmd : Base.ThreadCommand.Callable St) : M St (option CommandResult) :=
  fun w =>
    match Base.ThreadCommand.needs cmd with
    | None => (OutOfFuel, w)
    | Some _ => (Returns None, Base.ThreadCommand.effect cmd w)
    end.

(** A [_do_work] that succeeds and touches nothing, and a command of
    command/base.py around it. *)
Definition ok_do_work {St} : M St (option CommandResult) :=
  ret (Some (new_ok None None)).

Definition ok_leaf {St} : Obj.Command St :=
  Obj.mkCommand None STOP
    (fun fuel => Base.BaseCommand.process STOP ok_do_work fuel)
    Base.BaseCommand.get_number_of_works.

(** A command somebody has given a work count. *)
Definition counted_leaf (n : Z) : Obj.Command unit :=
  Obj.mkCommand (Some n) STOP (Obj.process ok_leaf)
    Base.BaseCommand.get_number_of_works.

(** A command of command.py whose [_do_work] returns nothing. *)
Definition none_child : Obj.Command unit :=
  Obj.mkCommand None STOP
    (fun fuel => CommandPy.BaseCommand.process STOP (ret None) fuel)
    CommandPy.BaseCommand.get_number_of_works.

(** The template of [_format_log]. *)
Definition log_template : string := "Class: %s, Work: %d: %s".

(** No brace in the string. *)
Fixpoint plain (s : string) : bool :=
  match s with
  | EmptyString => true
  | String c rest =>
      (negb (Ascii.eqb c "{"%char || Ascii.eqb c "}"%char) && plain rest)%bool
  end.

(** Did the call hand back an OK result? *)
Definition returned_ok (x : Res (option CommandResult)) : bool :=
  match x with
  | Returns (Some r) =>
      match level r with OK => true | _ => false end
  | _ => false
  end.

(** ** Logging *)

(** The attributes [_log] reads and writes, the calls of [logger.log] it
    makes, and the part of [str.format] its caller needs. *)
Module LoggingModel.

(** [self.logger] (the logger, by its name, once [_log] has fetched it),
    [self.log_level], [self.logger_name]. *)
Record Attrs : Type := mkAttrs {
  logger : option string;
  log_level : Z;
  logger_name : option string
}.

(** One call [logger.log(level, text)]. *)
Record LogCall : Type := mkLogCall {
  on_logger : string;
  at_level : Z;
  text : string
}.

(** [BaseCommand.__init__]: [logger = None],
    [log_level = int(kwargs.get("log_level", logging.INFO))],
    [logger_name = kwargs.get("logger_name", None)]. *)
Definition __init__ (kw_log_level : option Z) (kw_logger_name : option string)
    : Attrs :=
  mkAttrs None
    (match kw_log_level with Some l => l | None => 20 end)
    kw_logger_name.

(** [if self.logger_name:] - [None] and the empty string are false. *)
Definition truthy (name : option string) : bool :=
  match name with
  | None => false
  | Some EmptyString => false
  | Some _ => true
  end.

Inductive FormatArg : Type :=
| ArgStr (s : string)
| ArgInt (z : Z).

Definition render (a : FormatArg) : string :=
  match a with
  | ArgStr s => s
  | ArgInt z => DecimalString.NilZero.string_of_int (Z.to_int z)
  end.

(** [template.format( *args )] for templates made of literal text, the
    doubled braces and the automatic field [{}]: arguments nobody asks
    for are ignored.  [None] stands for a fault of [format] and for
    templates outside this fragment. *)
Fixpoint str_format (template : string) (args : list FormatArg)
    : option string :=
  match template with
  | EmptyString => Some EmptyString
  | String "{"%char (String "{"%char rest) =>
      option_map (String "{"%char) (str_format rest args)
  | String "}"%char (String "}"%char rest) =>
      option_map (String "}"%char) (str_format rest args)
  | String "{"%char (String "}"%char rest) =>
      match args with
      | a :: args' => option_map (append (render a)) (str_format rest args')
      | [] => None
      end
  | String c rest =>
      if (Ascii.eqb c "{"%char || Ascii.eqb c "}"%char)%bool then None
      else option_map (String c) (str_format rest args)
  end.

(** The tail both [_log]s share once [self.logger] is set:
    [if self.log_level <= level: self.logger.log(level, formatted)]. *)
Definition emit (self : Attrs) (name : string) (level : Z)
    (formatted : option string) : option (Attrs * list LogCall) :=
  if log_level self <=? level then
    match formatted with
    | Some t => Some (self, [mkLogCall name level t])
    | None => None
    end
  else Some (self, []).
End LoggingModel.

(** command/base.py, [_format_log] and [_log] *)
Module BaseLogging.
Import LoggingModel.

(** ["Class: %s, Work: %d: %s".format(self.__class__.__name__,
    Counter.get_count(), message)] *)
Definition _format_log (class_name : string) (count : Z) (message : string)
    : option string :=
  str_format "Class: %s, Work: %d: %s"
    [ArgStr class_name; ArgInt count; ArgStr message].

Definition _log (class_name : string) (count : Z) (self : Attrs)
    (level : Z) (message : string) : option (Attrs * list LogCall) :=
  match logger self with
  | None =>
      if truthy (logger_name self) then
        match logger_name self with
        | Some name =>
            emit (mkAttrs (Some name) (log_level self) (logger_name self))
              name level (_format_log class_name count message)
        | None => Some (self, [])
        end
      else Some (self, [])
  | Some name =>
      emit self name level (_format_log class_name count message)
  end.
End BaseLogging.

(** command.py, [_log]: the message goes to the logger as it is. *)
Module CommandPyLogging.
Import LoggingModel.

Definition _log (self : Attrs) (level : Z) (message : string)
    : option (Attrs * list LogCall) :=
  match logger self with
  | None =>
      if truthy (logger_name self) then
        match logger_name self with
        | Some name =>
            emit (mkAttrs (Some name) (log_level self) (logger_name self))
              name level (Some message)
        | None => Some (self, [])
        end
      else Some (self, [])
  | Some name => emit self name level (Some message)
  end.
End CommandPyLogging.

(** The faults the [try] statement of either engine lets through: a
    [RunnerRuntimeError], which it raises again, and what is no
    [Exception], which no clause catches. *)
Definition passes_through (f : Fault) : bool :=
  match f with
  | PyRaise _ => false
  | RunnerRuntimeError _ _ | PyBaseRaise _ => true
  end.

(** The attempts of one call of [process()] of command.py that starts in
    [w]: the first one has [i = 1] and starts in [w]; an attempt that
    ends with an ERROR under the restart strategy is followed by the
    next one, as long as [i] stays within 3. *)
Inductive attempt_at {St : Type} (strategy : ErrorStrategy)
    (do_work : M St (option CommandResult)) (w : World St)
    : Z -> World St -> Prop :=
| first_attempt : attempt_at strategy do_work w 1 w
| next_attempt (i : Z) (wi w' : World St) (r : CommandResult) :
    attempt_at strategy do_work w i wi ->
    i < 3 ->
    strategy = RESTART ->
    CommandPy.BaseCommand.attempt do_work wi = (Returns (Some r), w') ->
    level r = ERROR ->
    attempt_at strategy do_work w (i + 1) w'.

(** A [_do_work] that reports ERROR on its first call and CRITICAL from
    then on; the state counts the calls. *)
Definition error_then_critical : M nat (option CommandResult) :=
  fun w =>
    (Returns (Some (match ext w with
                    | O => new_error None None
                    | S _ => new_critical (Some "disk full") None
                    end)),
     mkWorld (counter w) (iteration_of w) (S (ext w))).

(** ** The engine: who raises, who returns *)

Section EngineFacts.
Context {St : Type}.
Variable strategy : ErrorStrategy.
Variable do_work : M St (option CommandResult).

Lemma Base_attempt_reraises w w' r n :
  do_work w = (Raises (RunnerRuntimeError r n), w') ->
  Base.BaseCommand.attempt do_work w = (Raises (RunnerRuntimeError r n), w').
Proof.
  intros H. unfold Base.BaseCommand.attempt, try_except, bind.
  rewrite H. reflexivity.
Qed.

Lemma CommandPy_attempt_reraises w w' r n :
  do_work w = (Raises (RunnerRuntimeError r n), w') ->
  CommandPy.BaseCommand.attempt do_work w
  = (Raises (RunnerRuntimeError r n), w').
Proof.
  intros H. unfold CommandPy.BaseCommand.attempt, try_except.
  rewrite H. reflexivity.
Qed.

(** A fault that leaves [attempt] is one that left [_do_work] and that
    the [try] statement lets through. *)
Lemma Base_attempt_raises_inv w w' f :
  Base.BaseCommand.attempt do_work w = (Raises f, w') ->
  passes_through f = true /\ do_work w = (Raises f, w').
Proof.
  unfold Base.BaseCommand.attempt, try_except, bind, ret, raise.
  destruct (do_work w) as [[a | g |] w1]; try discriminate.
  destruct g as [r n | e | b]; try discriminate;
    intros H; injection H as <- <-; split; reflexivity.
Qed.

Lemma CommandPy_attempt_raises_inv w w' f :
  CommandPy.BaseCommand.attempt do_work w = (Raises f, w') ->
  passes_through f = true /\ do_work w = (Raises f, w').
Proof.
  unfold CommandPy.BaseCommand.attempt, try_except, ret, raise.
  destruct (do_work w) as [[a | g |] w1]; try discriminate.
  destruct g as [r n | e | b]; try discriminate;
    intros H; injection H as <- <-; split; reflexivity.
Qed.
End EngineFacts.

Section EngineSteps.
Context {St : Type}.
Variable strategy : ErrorStrategy.
Variable do_work : M St (option CommandResult).

(** One pass through [_do_process] of command/base.py, spelled out. *)
Lemma Base_do_process_step fuel iteration w :
  iteration <= 3 ->
  Base.BaseCommand._do_process strategy do_work (S fuel) iteration w =
  match Base.BaseCommand.attempt do_work w with
  | (Returns r, w') =>
      match level r with
      | OK => (Returns (Some r), snd (Counter_increment w'))
      | ERROR =>
          match strategy with
          | RESTART =>
              Base.BaseCommand.process_call
                (Base.BaseCommand._do_process strategy do_work fuel)
                [iteration + 1] w'
          | _ => (Returns (Some r), w')
          end
      | CRITICAL => (Raises (RunnerRuntimeError r iteration), w')
      end
  | (Raises f, w') => (Raises f, w')
  | (OutOfFuel, w') => (OutOfFuel, w')
  end.
Proof.
  intros Hit. cbn [Base.BaseCommand._do_process].
  replace (iteration >? 3) with false
    by (symmetry; rewrite Z.gtb_ltb; apply Z.ltb_ge; lia).
  unfold bind at 1.
  destruct (Base.BaseCommand.attempt do_work w) as [[r | f |] w']; try reflexivity.
  destruct (level r); try reflexivity.
  destruct strategy; reflexivity.
Qed.

(** One pass through the loop of [process] of command.py. *)
Lemma CommandPy_process_loop_step fuel result i w :
  i <= 3 ->
  CommandPy.BaseCommand.process_loop strategy do_work (S fuel) result i w =
  match CommandPy.BaseCommand.attempt do_work w with
  | (Returns None, w') =>
      (Raises (PyRaise (AttributeError
         "'NoneType' object has no attribute 'level'")), w')
  | (Returns (Some r), w') =>
      match level r with
      | OK => (Returns (Some r), snd (Counter_increment w'))
      | ERROR =>
          match strategy with
          | RESTART =>
              CommandPy.BaseCommand.process_loop strategy do_work fuel
                (Some r) (i + 1) w'
          | _ => (Returns (Some r), w')
          end
      | CRITICAL => (Raises (RunnerRuntimeError r i), w')
      end
  | (Raises f, w') => (Raises f, w')
  | (OutOfFuel, w') => (OutOfFuel, w')
  end.
Proof.
  intros Hi. cbn [CommandPy.BaseCommand.process_loop].
  replace (i <=? 3) with true by (symmetry; apply Z.leb_le; lia).
  unfold bind at 1.
  destruct (CommandPy.BaseCommand.attempt do_work w) as [[[r|] | f |] w'];
    try reflexivity.
  destruct (level r); try reflexivity.
  destruct strategy; reflexivity.
Qed.

(** Leaving the loop of command.py once [i] has passed 3. *)
Lemma CommandPy_process_loop_exit fuel result i w :
  3 < i ->
  CommandPy.BaseCommand.process_loop strategy do_work (S fuel) result i w =
  (Returns (Some (match result with None => cannot_run | Some r => r end)), w).
Proof.
  intros Hi. cbn [CommandPy.BaseCommand.process_loop].
  replace (i <=? 3) with false by (symmetry; apply Z.leb_gt; lia).
  destruct result; reflexivity.
Qed.

(** [process] of command/base.py drops what [_do_process] returned. *)
Lemma Base_process_drops fuel w :
  Base.BaseCommand.process strategy do_work fuel w =
  match Base.BaseCommand._do_process strategy do_work fuel 1 w with
  | (Returns _, w') => (Returns None, w')
  | other => other
  end.
Proof.
  unfold Base.BaseCommand.process, Base.BaseCommand.process_call, bind, ret.
  destruct (Base.BaseCommand._do_process strategy do_work fuel 1 w)
    as [[a | f |] w']; reflexivity.
Qed.

(** What the two [attempt]s make of the outcome of [_do_work]. *)
Lemma Base_attempt_spec w :
  Base.BaseCommand.attempt do_work w =
  match do_work w with
  | (Returns None, w') => (Returns (new_ok None None), w')
  | (Returns (Some r), w') => (Returns r, w')
  | (Raises (PyRaise e), w') => (Returns (caught e), w')
  | (Raises f, w') => (Raises f, w')
  | (OutOfFuel, w') => (OutOfFuel, w')
  end.
Proof.
  unfold Base.BaseCommand.attempt, try_except, bind, ret, raise.
  destruct (do_work w) as [[[r|] | [r n | e | b] |] w']; reflexivity.
Qed.

Lemma CommandPy_attempt_spec w :
  CommandPy.BaseCommand.attempt do_work w =
  match do_work w with
  | (Raises (PyRaise e), w') => (Returns (Some (caught e)), w')
  | other => other
  end.
Proof.
  unfold CommandPy.BaseCommand.attempt, try_except, ret, raise.
  destruct (do_work w) as [[[r|] | [r n | e | b] |] w']; reflexivity.
Qed.
End EngineSteps.

Section ProcessOutcome.
Context {St : Type}.
Variable strategy : ErrorStrategy.
Variable do_work : M St (option CommandResult).

Let base_process := Base.BaseCommand.process strategy do_work.
Let base_engine := Base.BaseCommand._do_process strategy do_work.
Let cpy_process := CommandPy.BaseCommand.process strategy do_work.

Lemma Base_first_attempt fuel w :
  settles strategy do_work w ->
  base_engine (S fuel) 1 w =
  match Base.BaseCommand.attempt do_work w with
  | (Returns r, w') =>
      match level r with
      | OK => (Returns (Some r), snd (Counter_increment w'))
      | ERROR => (Returns (Some r), w')
      | CRITICAL => (Raises (RunnerRuntimeError r 1), w')
      end
  | other =>
      (match fst other with
       | Raises f => Raises f
       | _ => OutOfFuel
       end, snd other)
  end.
Proof.
  intros Hs. unfold base_engine.
  rewrite Base_do_process_step by lia.
  unfold settles in Hs.
  destruct (Base.BaseCommand.attempt do_work w) as [[r | f |] w'];
    try reflexivity.
  destruct (level r) eqn:El; try reflexivity.
  destruct strategy; try reflexivity.
  exfalso. apply (Hs r); auto.
Qed.

Lemma CommandPy_first_attempt fuel w :
  settles strategy do_work w ->
  cpy_process (S fuel) w =
  match CommandPy.BaseCommand.attempt do_work w with
  | (Returns None, w') =>
      (Raises (PyRaise (AttributeError
         "'NoneType' object has no attribute 'level'")), w')
  | (Returns (Some r), w') =>
      match level r with
      | OK => (Returns (Some r), snd (Counter_increment w'))
      | ERROR => (Returns (Some r), w')
      | CRITICAL => (Raises (RunnerRuntimeError r 1), w')
      end
  | other => other
  end.
Proof.
  intros Hs. unfold cpy_process, CommandPy.BaseCommand.process.
  rewrite CommandPy_process_loop_step by lia.
  unfold settles in Hs. rewrite Base_attempt_spec in Hs.
  rewrite CommandPy_attempt_spec.
  destruct (do_work w) as [[[r|] | [r n | e | b] |] w']; try reflexivity.
  - destruct (level r) eqn:El; try reflexivity.
    destruct strategy; try reflexivity.
    exfalso. apply (Hs r); auto.
  - cbn. destruct strategy; try reflexivity.
    exfalso. apply (Hs (caught e)); auto.
Qed.

Lemma CommandPy_attempt_passes w w' f :
  do_work w = (Raises f, w') ->
  passes_through f = true ->
  CommandPy.BaseCommand.attempt do_work w = (Raises f, w').
Proof.
  intros H Hp. rewrite CommandPy_attempt_spec, H.
  destruct f; cbn in Hp; try discriminate; reflexivity.
Qed.

Lemma CommandPy_attempt_none_inv w w' :
  CommandPy.BaseCommand.attempt do_work w = (Returns None, w') ->
  fst (do_work w) = Returns None.
Proof.
  rewrite CommandPy_attempt_spec.
  destruct (do_work w) as [[[r|] | [r n | e | b] |] w1]; cbn;
    intros H; try discriminate; reflexivity.
Qed.

Lemma attempt_at_range w i wi :
  attempt_at strategy do_work w i wi -> 1 <= i <= 3.
Proof.
  induction 1; lia.
Qed.

(** The loop of command.py is at iteration [i] in world [wi] when the
    attempt [i] starts there. *)
Lemma attempt_at_reached w i wi :
  attempt_at strategy do_work w i wi ->
  exists result, forall fuel,
    cpy_process (4 + fuel) w
    = CommandPy.BaseCommand.process_loop strategy do_work
        (Z.to_nat (5 - i) + fuel) result i wi.
Proof.
  induction 1 as [| i wi w' r Hat IH Hi Hs Ha Hl].
  - exists None. intros fuel. reflexivity.
  - destruct IH as [result IH]. exists (Some r). intros fuel.
    rewrite IH.
    replace (Z.to_nat (5 - i) + fuel)%nat
      with (S (Z.to_nat (5 - (i + 1)) + fuel)) by lia.
    rewrite CommandPy_process_loop_step by lia.
    rewrite Ha, Hl, Hs. reflexivity.
Qed.

(** Where a fault that leaves the loop of command.py comes from. *)
Lemma CommandPy_loop_raises_inv w f :
  (forall i wi, attempt_at strategy do_work w i wi ->
                fst (do_work wi) <> Returns None) ->
  forall fuel result i wi,
    attempt_at strategy do_work w i wi ->
    fst (CommandPy.BaseCommand.process_loop strategy do_work fuel result i wi)
    = Raises f ->
    exists j wj,
      attempt_at strategy do_work w j wj
      /\ ((fst (do_work wj) = Raises f /\ passes_through f = true)
          \/ exists r,
               fst (CommandPy.BaseCommand.attempt do_work wj) = Returns (Some r)
               /\ level r = CRITICAL /\ f = RunnerRuntimeError r j).
Proof.
  intros Hnone fuel. induction fuel as [| fuel IH]; intros result i wi Hat H;
    [discriminate |].
  pose proof (attempt_at_range w i wi Hat) as Hi.
  rewrite CommandPy_process_loop_step in H by lia.
  destruct (CommandPy.BaseCommand.attempt do_work wi)
    as [[[r|] | f' |] w'] eqn:Ea; cbn [fst] in H.
  - destruct (level r) eqn:El; try discriminate.
    + destruct strategy eqn:Es; try discriminate.
      destruct (Z.eq_dec i 3) as [-> | Hne].
      * destruct fuel as [| fuel']; [discriminate |].
        rewrite CommandPy_process_loop_exit in H by lia. discriminate.
      * apply (IH (Some r) (i + 1) w'); [| exact H].
        apply (next_attempt _ _ _ i wi w' r); auto. lia.
    + exists i, wi. split; [exact Hat |]. right. exists r.
      rewrite Ea. injection H as <-. auto.
  - exfalso. apply (Hnone i wi Hat).
    apply (CommandPy_attempt_none_inv _ _ Ea).
  - apply CommandPy_attempt_raises_inv in Ea. destruct Ea as [Hp Hd].
    exists i, wi. split; [exact Hat |]. left.
    injection H as <-. rewrite Hd. auto.
  - discriminate.
Qed.

(** C1, amended.  [process()] raises exactly when a fault the engine
    lets through left [_do_work] (a [RunnerRuntimeError], or a fault
    that is no [Exception]), and then it is that fault, unchanged, or
    when the outcome dispatched at an attempt is CRITICAL, and then the
    fault is [RunnerRuntimeError] with that result and the iteration
    count of that attempt: 1, 2 or 3 in command.py, which retries, and
    the [iteration] of [_do_process] in command/base.py, which is 1 for
    every call [process()] makes.  When the dispatched outcome is OK,
    or ERROR under stop or omit, [process()] does not raise and the
    engine ([_do_process] in command/base.py, [process] in command.py)
    hands back that very result.  For command/base.py this is about a
    first attempt after which no restart is due, for command.py about a
    [_do_work] that returns a result or raises at every attempt. *)
Theorem C1_process_raises_on_critical_or_passed_fault
    (fuel : nat) (w : World St) :
  (settles strategy do_work w ->
   (forall f,
       fst (base_process (S fuel) w) = Raises f
       <-> (fst (do_work w) = Raises f /\ passes_through f = true)
           \/ exists r,
                fst (Base.BaseCommand.attempt do_work w) = Returns r
                /\ level r = CRITICAL /\ f = RunnerRuntimeError r 1)
   /\ (forall r,
         fst (Base.BaseCommand.attempt do_work w) = Returns r ->
         level r <> CRITICAL ->
         fst (base_engine (S fuel) 1 w) = Returns (Some r)
         /\ raised (fst (base_process (S fuel) w)) = false))
  /\ (forall iteration r w',
        iteration <= 3 ->
        Base.BaseCommand.attempt do_work w = (Returns r, w') ->
        level r = CRITICAL ->
        base_engine (S fuel) iteration w
        = (Raises (RunnerRuntimeError r iteration), w'))
  /\ ((forall i wi, attempt_at strategy do_work w i wi ->
                    fst (do_work wi) <> Returns None) ->
      (forall f,
          fst (cpy_process (4 + fuel) w) = Raises f
          <-> exists i wi,
                attempt_at strategy do_work w i wi
                /\ ((fst (do_work wi) = Raises f /\ passes_through f = true)
                    \/ exists r,
                         fst (CommandPy.BaseCommand.attempt do_work wi)
                         = Returns (Some r)
                         /\ level r = CRITICAL
                         /\ f = RunnerRuntimeError r i))
      /\ (forall i wi r,
            attempt_at strategy do_work w i wi ->
            fst (CommandPy.BaseCommand.attempt do_work wi) = Returns (Some r) ->
            level r = OK \/ (level r = ERROR /\ strategy <> RESTART) ->
            fst (cpy_process (4 + fuel) w) = Returns (Some r))).
Proof.
  split; [| split].
  - (* command/base.py, through process() *)
    intros Hs. unfold base_process. rewrite Base_process_drops.
    fold base_engine. rewrite (Base_first_attempt fuel w Hs).
    rewrite Base_attempt_spec.
    destruct (do_work w) as [[[r|] | [r n | e | b] |] w']; cbn [fst snd];
      [ destruct (level r) eqn:El | | | | | ];
      cbn [level new_ok caught CommandResult_init fst snd raised];
      repeat split; intros; break_hyps; try congruence; eauto 8;
      cbn in *; congruence.
  - (* command/base.py, _do_process at any iteration *)
    intros iteration r w' Hi Ha Hl. unfold base_engine.
    rewrite Base_do_process_step by exact Hi. rewrite Ha, Hl. reflexivity.
  - (* command.py, with its retries *)
    intros Hnone. split.
    + intros f. split.
      * intros H. unfold cpy_process, CommandPy.BaseCommand.process in H.
        apply (CommandPy_loop_raises_inv w f Hnone (4 + fuel)%nat None 1 w);
          [constructor | exact H].
      * intros (i & wi & Hat & H).
        destruct (attempt_at_reached w i wi Hat) as [result Hr].
        pose proof (attempt_at_range w i wi Hat) as Hi.
        rewrite Hr.
        replace (Z.to_nat (5 - i) + fuel)%nat
          with (S (Z.to_nat (4 - i) + fuel)) by lia.
        rewrite CommandPy_process_loop_step by lia.
        destruct H as [[Hd Hp] | (r & Ha & Hl & ->)].
        -- destruct (do_work wi) as [o w'] eqn:Ed. cbn [fst] in Hd. subst o.
           rewrite (CommandPy_attempt_passes wi w' f Ed Hp). reflexivity.
        -- destruct (CommandPy.BaseCommand.attempt do_work wi) as [o w'].
           cbn [fst] in Ha. subst o. rewrite Hl. reflexivity.
    + intros i wi r Hat Ha Hl.
      destruct (attempt_at_reached w i wi Hat) as [result Hr].
      pose proof (attempt_at_range w i wi Hat) as Hi.
      rewrite Hr.
      replace (Z.to_nat (5 - i) + fuel)%nat
        with (S (Z.to_nat (4 - i) + fuel)) by lia.
      rewrite CommandPy_process_loop_step by lia.
      destruct (CommandPy.BaseCommand.attempt do_work wi) as [o w'].
      cbn [fst] in Ha. subst o.
      destruct Hl as [-> | [-> Hs]]; [reflexivity |].
      destruct strategy; try reflexivity. congruence.
Qed.
End ProcessOutcome.

Lemma C1_witness :
  settles STOP failing_do_work (fresh tt)
  /\ fst (Base.BaseCommand.process STOP failing_do_work 1 (fresh tt))
     = Raises (RunnerRuntimeError (new_critical (Some "disk full") None) 1)
  /\ (forall i wi,
        attempt_at RESTART error_then_critical (fresh O) i wi ->
        fst (error_then_critical wi) <> Returns None)
  /\ fst (CommandPy.BaseCommand.process RESTART error_then_critical 4
            (fresh O))
     = Raises (RunnerRuntimeError (new_critical (Some "disk full") None) 2).
Proof.
  assert (Hs : settles STOP failing_do_work (fresh tt))
    by (intros r H Hl; discriminate).
  assert (Hn : forall i wi,
             attempt_at RESTART error_then_critical (fresh O) i wi ->
             fst (error_then_critical wi) <> Returns None)
    by (intros i wi _; discriminate).
  split; [exact Hs |]. split; [| split; [exact Hn |]].
  - destruct (C1_process_raises_on_critical_or_passed_fault STOP
                failing_do_work 0 (fresh tt)) as (Hb & _ & _).
    destruct (Hb Hs) as [Hiff _]. apply Hiff.
    right. exists (new_critical (Some "disk full") None).
    repeat split; reflexivity.
  - destruct (C1_process_raises_on_critical_or_passed_fault RESTART
                error_then_critical 0 (fresh O)) as (_ & _ & Hc).
    destruct (Hc Hn) as [Hiff _]. apply Hiff.
    exists 2, (mkWorld 0 (fun _ => 0) 1%nat). split.
    + apply (next_attempt RESTART error_then_critical (fresh O) 1 (fresh O)
               _ (new_error None None)).
      * constructor.
      * lia.
      * reflexivity.
      * reflexivity.
      * reflexivity.
    + right. exists (new_critical (Some "disk full") None).
      repeat split; reflexivity.
Defined.

(** C1 as stated fails on the command of tests/test_command/util.py: its
    [_do_work] raises [RunnerRuntimeError(CommandResult.new_error(), 5)],
    [process()] lets that fault through, and no outcome was dispatched,
    let alone a CRITICAL one. *)
Lemma C1_counterexample :
  ~ Base_raises_iff_critical STOP
      (@TestUtil.RuntimeExceptionCommand_do_work unit) 1 (fresh tt)
  /\ ~ CommandPy_raises_iff_critical STOP
         (@TestUtil.RuntimeExceptionCommand_do_work unit) 1 (fresh tt)
  /\ fst (Base.BaseCommand.process STOP
            (@TestUtil.RuntimeExceptionCommand_do_work unit) 1 (fresh tt))
     = Raises (RunnerRuntimeError (new_error None None) 5).
Proof.
  split; [| split].
  - intros [H _]. destruct H as (r & H & _); [reflexivity | discriminate].
  - intros [H _]. destruct H as (r & H & _); [reflexivity | discriminate].
  - reflexivity.
Qed.

(** ** The restart strategy *)

(** C3, at a command under the restart strategy whose [_do_work] always
    reports ERROR.  In command/base.py the first ERROR reaches
    [self.process(iteration + 1)], a call with an argument [process]
    does not take: [process()] raises [TypeError] after one attempt, and
    the "Cannot run process" result is never built.  In command.py the
    loop ends after three attempts and hands back the third ERROR
    result, the [result is None] test after the loop being false. *)
Theorem C3_restart_cap_not_reported {St : Type} (w : World St) (fuel : nat) :
  Base.BaseCommand.process RESTART always_error (S fuel) w
  = (Raises process_arity_fault, w)
  /\ CommandPy.BaseCommand.process RESTART always_error (4 + fuel) w
     = (Returns (Some (new_error None None)), w)
  /\ level (new_error None None) <> CRITICAL.
Proof.
  split; [| split].
  - reflexivity.
  - reflexivity.
  - discriminate.
Qed.

(** The branch of command/base.py that builds the result is there, for a
    call nobody makes: [_do_process] entered with an iteration above 3. *)
Lemma Base_do_process_beyond_cap {St : Type} strategy
    (do_work : M St (option CommandResult)) fuel iteration w :
  3 < iteration ->
  Base.BaseCommand._do_process strategy do_work (S fuel) iteration w
  = (Returns (Some cannot_run), w).
Proof.
  intros H. cbn [Base.BaseCommand._do_process].
  replace (iteration >? 3) with true
    by (symmetry; rewrite Z.gtb_ltb; apply Z.ltb_lt; lia).
  reflexivity.
Qed.

(** C4, at the script ERROR, ERROR, OK under the restart strategy.
    command.py does what the claim says: three calls of [_do_work], the
    OK result returned, the Counter up by one.  command/base.py raises
    [TypeError] out of [process()] after the first call, with the
    Counter untouched and two outcomes of the script never asked for. *)
Theorem C4_restart_error_error_ok (fuel : nat) :
  CommandPy.BaseCommand.process RESTART scripted (4 + fuel) (fresh error_error_ok)
  = (Returns (Some (new_ok None None)),
     mkWorld 1 (iteration_of (fresh error_error_ok)) ([], 3%nat))
  /\ fst (Base.BaseCommand.process RESTART scripted (S fuel) (fresh error_error_ok))
     = Raises process_arity_fault
  /\ counter (snd (Base.BaseCommand.process RESTART scripted (S fuel)
                     (fresh error_error_ok))) = 0
  /\ snd (ext (snd (Base.BaseCommand.process RESTART scripted (S fuel)
                      (fresh error_error_ok)))) = 1%nat.
Proof.
  repeat split; reflexivity.
Qed.

(** ** Faults and missing results of [_do_work] *)

(** command/base.py: a fault of [_do_work] other than
    [RunnerRuntimeError] becomes an ERROR result that carries it, and a
    missing result becomes [new_ok()]. *)
Lemma Base_attempt_coerces {St : Type}
    (do_work : M St (option CommandResult)) (w w' : World St) :
  (forall e, do_work w = (Raises (PyRaise e), w') ->
     Base.BaseCommand.attempt do_work w = (Returns (caught e), w'))
  /\ (do_work w = (Returns None, w') ->
      Base.BaseCommand.attempt do_work w = (Returns (new_ok None None), w')).
Proof.
  split; intros; rewrite Base_attempt_spec;
    match goal with H : do_work w = _ |- _ => rewrite H end; reflexivity.
Qed.

(** command.py coerces the fault in the same way. *)
Lemma CommandPy_attempt_coerces {St : Type}
    (do_work : M St (option CommandResult)) (w w' : World St) e :
  do_work w = (Raises (PyRaise e), w') ->
  CommandPy.BaseCommand.attempt do_work w = (Returns (Some (caught e)), w').
Proof.
  intros H. rewrite CommandPy_attempt_spec, H. reflexivity.
Qed.

(** C5, at a [_do_work] that returns nothing, in command.py: nothing
    replaces the [None], [result.level] raises [AttributeError], and the
    fault leaves [process()] whatever the strategy.  command/base.py
    turns the same [None] into an OK result. *)
Theorem C5_missing_result_not_coerced {St : Type} (strategy : ErrorStrategy)
    (w : World St) (fuel : nat) :
  CommandPy.BaseCommand.process strategy (ret None) (S fuel) w
  = (Raises none_level_fault, w)
  /\ Base.BaseCommand._do_process strategy (ret None) (S fuel) 1 w
     = (Returns (Some (new_ok None None)), snd (Counter_increment w)).
Proof.
  split; reflexivity.
Qed.

(** ** The two engines side by side *)

(** Where the engines do agree: whenever the first attempt settles the
    call (no restart is due) and [_do_work] did not return [None],
    [_do_process] of command/base.py and [process] of command.py end in
    the same way and leave the same world. *)
Lemma engines_agree_when_settled {St : Type} (strategy : ErrorStrategy)
    (do_work : M St (option CommandResult)) (fuel : nat) (w : World St) :
  settles strategy do_work w ->
  fst (do_work w) <> Returns None ->
  Base.BaseCommand._do_process strategy do_work (S fuel) 1 w
  = CommandPy.BaseCommand.process strategy do_work (S fuel) w.
Proof.
  intros Hs Hn.
  rewrite (Base_first_attempt strategy do_work fuel w Hs).
  rewrite (CommandPy_first_attempt strategy do_work fuel w Hs).
  rewrite Base_attempt_spec, CommandPy_attempt_spec.
  destruct (do_work w) as [[[r|] | [r n | e | b] |] w']; cbn in *;
    try reflexivity; congruence.
Qed.

(** C10.  The two engines part at three places.  At the script ERROR,
    ERROR, OK under the restart strategy command.py retries and returns
    the OK result, while command/base.py raises [TypeError] after the
    first attempt, out of [_do_process] and out of [process()].  At a
    [_do_work] that returns nothing command/base.py counts the work and
    returns, while command.py raises [AttributeError].  And where both
    succeed, [process()] of command.py hands back the result and
    [process()] of command/base.py hands back nothing. *)
Theorem C10_engines_differ (fuel : nat) :
  (fst (CommandPy.BaseCommand.process RESTART scripted (4 + fuel)
          (fresh error_error_ok)) = Returns (Some (new_ok None None))
   /\ fst (Base.BaseCommand.process RESTART scripted (S fuel)
             (fresh error_error_ok)) = Raises process_arity_fault
   /\ fst (Base.BaseCommand._do_process RESTART scripted (S fuel) 1
             (fresh error_error_ok)) = Raises process_arity_fault
   /\ ~ same_outcome
          (fst (Base.BaseCommand.process RESTART scripted (S fuel)
                  (fresh error_error_ok)))
          (fst (CommandPy.BaseCommand.process RESTART scripted (4 + fuel)
                  (fresh error_error_ok))))
  /\ (forall (strategy : ErrorStrategy) (w : World unit),
        Base.BaseCommand.process strategy (ret None) (S fuel) w
        = (Returns None, snd (Counter_increment w))
        /\ CommandPy.BaseCommand.process strategy (ret None) (S fuel) w
           = (Raises none_level_fault, w))
  /\ (forall (strategy : ErrorStrategy) (w : World unit),
        Base.BaseCommand.process strategy ok_do_work (S fuel) w
        = (Returns None, snd (Counter_increment w))
        /\ CommandPy.BaseCommand.process strategy ok_do_work (S fuel) w
           = (Returns (Some (new_ok None None)), snd (Counter_increment w))).
Proof.
  split; [| split].
  - repeat split; try reflexivity. cbn. exact (fun H => H).
  - intros strategy w. split; reflexivity.
  - intros strategy w. split; reflexivity.
Qed.

(** ** Counting the attempts *)

Section Attempts.
Context {St : Type}.
Variable strategy : ErrorStrategy.
Variable do_work : M St (option CommandResult).

Lemma counted_calls {A} (m : M St A) w :
  calls (snd (counted m w)) = S (calls w).
Proof.
  unfold counted, calls.
  destruct (m _) as [r w']. reflexivity.
Qed.

Lemma calls_increment (w : World (St * nat)) :
  calls (snd (Counter_increment w)) = calls w.
Proof. reflexivity. Qed.

Lemma CommandPy_attempt_calls w :
  calls (snd (CommandPy.BaseCommand.attempt (counted do_work) w))
  = S (calls w).
Proof.
  rewrite CommandPy_attempt_spec.
  rewrite <- (counted_calls do_work w).
  destruct (counted do_work w) as [[[r|] | [r n | e | b] |] w']; reflexivity.
Qed.

Lemma Base_attempt_calls w :
  calls (snd (Base.BaseCommand.attempt (counted do_work) w)) = S (calls w).
Proof.
  rewrite Base_attempt_spec.
  rewrite <- (counted_calls do_work w).
  destruct (counted do_work w) as [[[r|] | [r n | e | b] |] w']; reflexivity.
Qed.

(** command.py: from iteration [i] on, the loop calls [_do_work] at
    most [4 - i] times; from [process()], at most three times. *)
Lemma CommandPy_loop_attempts fuel :
  forall result i w,
    1 <= i ->
    (calls (snd (CommandPy.BaseCommand.process_loop strategy
                   (counted do_work) fuel result i w))
     <= calls w + Z.to_nat (4 - i))%nat.
Proof.
  induction fuel as [| fuel IH]; intros result i w Hi.
  - cbn. lia.
  - destruct (Z_le_gt_dec i 3) as [Hle | Hgt].
    + rewrite CommandPy_process_loop_step by exact Hle.
      pose proof (CommandPy_attempt_calls w) as Hc.
      destruct (CommandPy.BaseCommand.attempt (counted do_work) w)
        as [[[r|] | f |] w']; cbn [snd] in *; try lia.
      destruct (level r); cbn [snd];
        [ rewrite calls_increment; lia | | lia ].
      destruct strategy; cbn [snd]; try lia.
      specialize (IH (Some r) (i + 1) w' ltac:(lia)). lia.
    + rewrite CommandPy_process_loop_exit by lia. cbn. lia.
Qed.

Lemma CommandPy_at_most_three_attempts fuel w :
  (calls (snd (CommandPy.BaseCommand.process strategy (counted do_work)
                 fuel w)) <= calls w + 3)%nat.
Proof.
  unfold CommandPy.BaseCommand.process.
  pose proof (CommandPy_loop_attempts fuel None 1 w ltac:(lia)) as H.
  cbn in H. lia.
Qed.

(** command/base.py: one call of [process()] never gets past its
    first attempt. *)
Lemma Base_at_most_one_attempt fuel w :
  (calls (snd (Base.BaseCommand.process strategy (counted do_work) fuel w))
   <= calls w + 1)%nat.
Proof.
  rewrite Base_process_drops.
  destruct fuel as [| fuel].
  - cbn. lia.
  - rewrite Base_do_process_step by lia.
    pose proof (Base_attempt_calls w) as Hc.
    destruct (Base.BaseCommand.attempt (counted do_work) w)
      as [[r | f |] w']; cbn [snd] in *; try lia.
    destruct (level r); [ | destruct strategy | ];
      unfold calls in *; cbn; lia.
Qed.
End Attempts.

(** ** The sequential group *)

Section GroupFacts.
Context {St : Type}.
Variable self_id : nat.
Variable c0 : Obj.Command St.
Variable rest : list (Obj.Command St).
Variable reset_callback :
  option (Obj.Command St -> CommandResult -> M St (option (Obj.Command St))).
Variable error_strategy : ErrorStrategy.

Let commands := c0 :: rest.
Let loop := Shared.GroupCommand.while_loop commands.
Let group := Shared.GroupCommand._do_work self_id commands reset_callback
               error_strategy.

Lemma group_loop_step fuel w :
  loop (S fuel) 0 w =
  match Obj.process c0 fuel w with
  | (Returns _, w') => loop fuel 0 w'
  | (Raises f, w') => (Raises f, w')
  | (OutOfFuel, w') => (OutOfFuel, w')
  end.
Proof.
  unfold loop, commands. cbn [Shared.GroupCommand.while_loop].
  replace (0 <? Z.of_nat (List.length (c0 :: rest))) with true
    by (symmetry; apply Z.ltb_lt; cbn [List.length]; lia).
  unfold bind, getitem, ret. cbn.
  destruct (Obj.process c0 fuel w) as [[a | f |] w']; reflexivity.
Qed.

(** With a first child that returns, the loop stays on that child for
    as long as the fuel lasts. *)
Lemma group_loop_never_ends :
  (forall fuel w, raised (fst (Obj.process c0 fuel w)) = false) ->
  forall fuel w, fst (loop fuel 0 w) = OutOfFuel.
Proof.
  intros Hc0 fuel. induction fuel as [| fuel IH]; intros w.
  - reflexivity.
  - rewrite group_loop_step. specialize (Hc0 fuel w).
    destruct (Obj.process c0 fuel w) as [[a | f |] w']; cbn in *.
    + apply IH.
    + discriminate.
    + reflexivity.
Qed.

(** Whatever the first child keeps true of the world is all that ever
    happens to it. *)
Lemma group_loop_invariant (P : World St -> Prop) :
  (forall fuel w, P w -> P (snd (Obj.process c0 fuel w))) ->
  forall fuel w, P w -> P (snd (loop fuel 0 w)).
Proof.
  intros Hc0 fuel. induction fuel as [| fuel IH]; intros w Hw.
  - exact Hw.
  - rewrite group_loop_step. specialize (Hc0 fuel w Hw).
    destruct (Obj.process c0 fuel w) as [[a | f |] w']; cbn in *; auto.
Qed.

Lemma group_do_work_diverges fuel w :
  fst (loop fuel 0 w) = OutOfFuel ->
  group (S fuel) w = (OutOfFuel, snd (loop fuel 0 w)).
Proof.
  intros H. unfold group. cbn [Shared.GroupCommand._do_work].
  unfold try_except, bind at 1. fold commands. fold loop.
  destruct (loop fuel 0 w) as [[a | f |] w']; cbn in H; try discriminate.
  reflexivity.
Qed.

Lemma group_never_returns :
  (forall fuel w, raised (fst (Obj.process c0 fuel w)) = false) ->
  forall fuel w, fst (group fuel w) = OutOfFuel.
Proof.
  intros Hc0 [| fuel] w.
  - reflexivity.
  - rewrite group_do_work_diverges by (apply group_loop_never_ends, Hc0).
    reflexivity.
Qed.

(** The [except RunnerRuntimeError] clause, for a first child whose
    [process()] raises: the hook gets that child and the result the
    fault carries, a command it returns is run once, and the group's
    own strategy decides. *)
Lemma group_handles_fault fuel w w1 r n :
  Obj.process c0 fuel w = (Raises (RunnerRuntimeError r n), w1) ->
  group (S (S fuel)) w =
  (match reset_callback with
   | Some callback =>
       command <- callback c0 r ;;
       match command with
       | Some c' => Obj.process c' (S fuel) ;;; ret tt
       | None => ret tt
       end
   | None => ret tt
   end ;;;
   match error_strategy with
   | OMIT => ret None
   | STOP => raise (RunnerRuntimeError r n)
   | RESTART => bump_iteration self_id ;;; group (S fuel) ;;; ret None
   end) w1.
Proof.
  intros H. unfold group at 1. cbn [Shared.GroupCommand._do_work].
  unfold try_except at 1. unfold bind at 1.
  fold commands. fold loop. rewrite group_loop_step, H.
  unfold commands at 1. unfold getitem. cbn [nth_error Z.ltb Z.compare Z.to_nat].
  destruct reset_callback as [callback |]; reflexivity.
Qed.
End GroupFacts.

Lemma logging_child_returns k fuel w :
  raised (fst (Obj.process (logging_child k) fuel w)) = false.
Proof.
  destruct fuel; reflexivity.
Qed.

Lemma logging_child_log k fuel w :
  ext (snd (Obj.process (logging_child k) fuel w)) = ext w
  \/ ext (snd (Obj.process (logging_child k) fuel w)) = (ext w ++ [k])%list.
Proof.
  destruct fuel; [left | right]; reflexivity.
Qed.

(** C2, at a group of two children that both succeed.  The loop never
    moves on from the first child ([i] is not advanced): for every
    amount of fuel the group's [_do_work] is still running when the
    fuel is gone, the second child has not been called, and the log
    shows the first child called over and over. *)
Theorem C2_group_stays_on_first_child (fuel : nat) :
  let group :=
    Shared.GroupCommand._do_work 0 [logging_child 0; logging_child 1]
      None STOP in
  fst (group fuel (fresh [])) = OutOfFuel
  /\ ~ In 1%nat (ext (snd (group fuel (fresh []))))
  /\ ext (snd (group 5%nat (fresh []))) = [0; 0; 0]%nat.
Proof.
  cbn zeta. split; [| split].
  - apply group_never_returns. apply logging_child_returns.
  - destruct fuel as [| fuel]; [cbn; tauto |].
    rewrite group_do_work_diverges
      by (apply group_loop_never_ends, logging_child_returns).
    cbn [snd].
    apply (group_loop_invariant (logging_child 0) [logging_child 1]
             (fun w => ~ In 1%nat (ext w))).
    + intros f w Hw.
      destruct (logging_child_log 0 f w) as [E | E]; rewrite E; [exact Hw |].
      rewrite in_app_iff. cbn. intros [H | [H | []]]; [tauto | discriminate].
    + cbn. tauto.
  - reflexivity.
Qed.

(** ** Work counts *)

(** What the constructors of command/base.py leave on an object: no
    [number_of_works] attribute. *)
Lemma instance_number_of_works {St : Type} kwargs
    (do_work : ErrorStrategy -> nat -> M St (option CommandResult)) gnw c :
  Base.BaseCommand.instance kwargs do_work gnw = Returns c ->
  Obj.number_of_works c = None /\ Obj.get_number_of_works c = gnw.
Proof.
  unfold Base.BaseCommand.instance.
  destruct (Base.BaseCommand.__init__ kwargs); cbn; try discriminate.
  intros H. injection H as <-. split; reflexivity.
Qed.

(** A cyclic command answers 1, whatever its child and its cycles. *)
Lemma cyclic_number_of_works {St : Type} (command : Obj.Command St) cycles c :
  Base.CyclicCommand command cycles no_kwargs = Returns c ->
  Obj.get_number_of_works c = Returns 1.
Proof.
  unfold Base.CyclicCommand. cbn [kw_number_of_works no_kwargs Res_bind].
  intros H. apply instance_number_of_works in H. apply H.
Qed.

(** C6, at a cyclic command of three cycles around a shell command, and
    at a group of two shell commands, built by the constructors of
    command/base.py.  The cyclic command has [BaseCommand]'s
    [get_number_of_works]: it answers 1, where child count times cycles
    is 3.  The group sums the attribute [number_of_works] of its
    children, which no constructor sets: the call raises
    [AttributeError]. *)
Theorem C6_number_of_works_of_composites :
  Res_bind (Base.ShellCommand quiet_Popen ["true"] None no_kwargs) (fun leaf =>
    Res_bind (Base.CyclicCommand leaf 3 no_kwargs) Obj.get_number_of_works)
  = Returns 1
  /\ Res_bind (Base.ShellCommand quiet_Popen ["true"] None no_kwargs)
       Obj.get_number_of_works = Returns 1
  /\ Res_bind (Base.ShellCommand quiet_Popen ["true"] None no_kwargs) (fun leaf =>
       Res_bind (Base.GroupCommand 0 (Some [leaf; leaf]) None no_kwargs)
         Obj.get_number_of_works)
     = Raises no_number_of_works
  /\ Res_bind (Base.ShellCommand quiet_Popen ["true"] None no_kwargs) (fun leaf =>
       Res_bind (Base.ParallelCommand [0; 1]%nat [leaf; leaf] no_kwargs)
         Obj.get_number_of_works)
     = Raises no_number_of_works.
Proof.
  repeat split; reflexivity.
Qed.

(** ** The parallel command *)

Section ParallelFacts.
Context {St : Type}.
Variable commands : list (Obj.Command St).

Lemma Thread_run_never_raises {A} (target : M St A) w :
  raised (fst (Shared.ParallelCommand.Thread_run target w)) = false.
Proof.
  unfold Shared.ParallelCommand.Thread_run.
  destruct (target w) as [[a | f |] w']; reflexivity.
Qed.

Lemma run_workers_never_raises fuel schedule :
  forall w,
    raised (fst (Shared.ParallelCommand.run_workers commands fuel schedule w))
    = false.
Proof.
  induction schedule as [| k schedule IH]; intros w.
  - reflexivity.
  - cbn [Shared.ParallelCommand.run_workers].
    destruct (nth_error commands k) as [c |]; [| apply IH].
    unfold bind.
    pose proof (Thread_run_never_raises (Obj.process c fuel) w) as H.
    destruct (Shared.ParallelCommand.Thread_run (Obj.process c fuel) w)
      as [[a | f |] w']; cbn in *; [apply IH | discriminate | reflexivity].
Qed.
End ParallelFacts.

(** C7.  Whatever the children do and in whatever order the workers
    run, [_do_work] of a parallel command does not raise.  At a single
    child whose [process()] raises [RunnerRuntimeError], the fault ends
    in the worker and [_do_work] returns [None]. *)
Theorem C7_parallel_worker_fault_is_dropped :
  (forall (St : Type) (commands : list (Obj.Command St))
          (schedule : list nat) (fuel : nat) (w : World St),
      raised (fst (Shared.ParallelCommand._do_work commands schedule fuel w))
      = false)
  /\ fst (Obj.process RuntimeExceptionCommand 1 (fresh tt))
     = Raises (RunnerRuntimeError (new_error None None) 5)
  /\ Shared.ParallelCommand._do_work [RuntimeExceptionCommand] [0%nat] 1
       (fresh tt)
     = (Returns None, fresh tt).
Proof.
  split; [| split; reflexivity].
  intros St commands schedule fuel w.
  unfold Shared.ParallelCommand._do_work, bind.
  pose proof (run_workers_never_raises commands fuel schedule w) as H.
  destruct (Shared.ParallelCommand.run_workers commands fuel schedule w)
    as [[a | f |] w']; cbn in *; [reflexivity | discriminate | reflexivity].
Qed.

(** ** The shell command *)

(** C8.  When the external action has run and exited, a zero exit code
    makes [_do_work] return an OK result whose message is the captured
    standard output, and any other exit code an ERROR result; either
    way [additional_info] is the list holding the captured error
    stream. *)
Theorem C8_shell_exit_code {St : Type}
    (Popen_communicate : list string -> option string -> M St (Z * string * string))
    (cmd : list string) (cwd : option string) (w w' : World St)
    (returncode : Z) (stdout stderr : string) :
  Popen_communicate cmd cwd w = (Returns (returncode, stdout, stderr), w') ->
  exists result,
    Shared.ShellCommand._do_work Popen_communicate cmd cwd w
    = (Returns (Some result), w')
    /\ msg result = Some stdout
    /\ additional_info result = InfoList [PyStr stderr]
    /\ (returncode = 0 -> level result = OK)
    /\ (returncode <> 0 -> level result = ERROR).
Proof.
  intros H.
  unfold Shared.ShellCommand._do_work, bind. rewrite H.
  eexists. split; [reflexivity |].
  cbn. repeat split.
  - intros ->. reflexivity.
  - intros Hn. apply Z.eqb_neq in Hn. rewrite Hn. reflexivity.
Qed.

Lemma C8_witness :
  exists result,
    Shared.ShellCommand._do_work failing_Popen ["ls"; "/nowhere"] None (fresh tt)
    = (Returns (Some result), fresh tt)
    /\ msg result = Some "partial output"
    /\ additional_info result = InfoList [PyStr "No such file or directory"]
    /\ (2 = 0 -> level result = OK)
    /\ (2 <> 0 -> level result = ERROR).
Proof.
  apply (C8_shell_exit_code failing_Popen ["ls"; "/nowhere"] None
           (fresh tt) (fresh tt) 2 "partial output"
           "No such file or directory").
  reflexivity.
Defined.

(** ** The background thread *)

(** C9, amended.  With a timeout configured and a worker that has not
    finished by the deadline, [_do_work] returns an ERROR result whose
    message is "Thread timeout", leaves the worker alive and the world
    as it was; with a worker that has finished by the deadline, or with
    no timeout and a callable that finishes, it returns an OK result. *)
Theorem C9_thread_timeout {St : Type} (cmd : Base.ThreadCommand.Callable St)
    (timeout : option Z) (w : World St) :
  (forall t,
      timeout = Some t ->
      (Base.ThreadCommand.needs cmd = None
       \/ exists d, Base.ThreadCommand.needs cmd = Some d /\ Z.max t 0 < d) ->
      Base.ThreadCommand._do_work_thread (Base.ThreadCommand.needs cmd) timeout
      = Some (new_error (Some "Thread timeout") None, Base.ThreadCommand.Alive)
      /\ Base.ThreadCommand._do_work cmd timeout w
         = (Returns (Some (new_error (Some "Thread timeout") None)), w))
  /\ (forall d,
        Base.ThreadCommand.needs cmd = Some d ->
        (timeout = None \/ exists t, timeout = Some t /\ d <= Z.max t 0) ->
        Base.ThreadCommand._do_work_thread (Base.ThreadCommand.needs cmd) timeout
        = Some (new_ok None None, Base.ThreadCommand.Finished)
        /\ Base.ThreadCommand._do_work cmd timeout w
           = (Returns (Some (new_ok None None)), Base.ThreadCommand.effect cmd w)).
Proof.
  split.
  - intros t -> H.
    unfold Base.ThreadCommand._do_work, Base.ThreadCommand._do_work_thread,
      Base.ThreadCommand.join.
    destruct H as [-> | (d & -> & Hd)]; [split; reflexivity |].
    replace (d <=? Z.max t 0) with false by (symmetry; apply Z.leb_gt; lia).
    split; reflexivity.
  - intros d Hd H.
    unfold Base.ThreadCommand._do_work, Base.ThreadCommand._do_work_thread,
      Base.ThreadCommand.join.
    rewrite Hd.
    destruct H as [-> | (t & -> & Ht)]; [split; reflexivity |].
    replace (d <=? Z.max t 0) with true by (symmetry; apply Z.leb_le; lia).
    split; reflexivity.
Qed.

Lemma C9_witness :
  Base.ThreadCommand._do_work sleeps_forever (Some 0) (fresh tt)
  = (Returns (Some (new_error (Some "Thread timeout") None)), fresh tt).
Proof.
  apply (proj1 (C9_thread_timeout sleeps_forever (Some 0) (fresh tt)) 0
           eq_refl (or_introl eq_refl)).
Defined.

(** C9 as stated fails on the message: with a timeout of 0 and a
    callable that never returns, the result is an ERROR whose message is
    "Thread timeout", not "timeout". *)
Lemma C9_counterexample :
  exists result,
    fst (Base.ThreadCommand._do_work sleeps_forever (Some 0) (fresh tt))
    = Returns (Some result)
    /\ level result = ERROR
    /\ msg result <> Some "timeout".
Proof.
  eexists. split; [reflexivity |]. split; [reflexivity | discriminate].
Qed.

(** ** More about the engines *)

(** X1.  command/base.py under the restart strategy: whenever the
    outcome dispatched at an iteration up to 3 is an ERROR (reported by
    [_do_work], or made of a fault caught around it), [_do_process]
    raises the [TypeError] of [self.process(iteration + 1)] and leaves
    the world as the attempt left it; so does [process()]. *)
Theorem Base_restart_raises_on_error {St : Type}
    (do_work : M St (option CommandResult)) (fuel : nat) (iteration : Z)
    (w w' : World St) (r : CommandResult) :
  iteration <= 3 ->
  Base.BaseCommand.attempt do_work w = (Returns r, w') ->
  level r = ERROR ->
  Base.BaseCommand._do_process RESTART do_work (S fuel) iteration w
  = (Raises process_arity_fault, w')
  /\ Base.BaseCommand.process RESTART do_work (S fuel) w
     = (Raises process_arity_fault, w').
Proof.
  intros Hi Ha Hl. split.
  - rewrite Base_do_process_step by exact Hi.
    rewrite Ha, Hl. reflexivity.
  - rewrite Base_process_drops, Base_do_process_step by lia.
    rewrite Ha, Hl. reflexivity.
Qed.

Lemma Base_restart_raises_on_error_witness :
  Base.BaseCommand.process RESTART
    (raise (PyRaise (UserException "KeyError"))) 1 (fresh tt)
  = (Raises process_arity_fault, fresh tt).
Proof.
  apply (Base_restart_raises_on_error
           (raise (PyRaise (UserException "KeyError"))) 0 1
           (fresh tt) (fresh tt) (caught (UserException "KeyError"))).
  - lia.
  - reflexivity.
  - reflexivity.
Defined.

Section MoreAttempts.
Context {St : Type}.
Variable do_work : M St (option CommandResult).

(** X2.  No retry without the restart strategy, and none at all in
    command/base.py: given fuel, [process()] of command/base.py calls
    [_do_work] exactly once under every strategy, and [process()] of
    command.py calls it exactly once under stop and under omit. *)
Theorem one_attempt_without_restart (strategy : ErrorStrategy) (fuel : nat)
    (w : World (St * nat)) :
  calls (snd (Base.BaseCommand.process strategy (counted do_work) (S fuel) w))
  = S (calls w)
  /\ calls (snd (CommandPy.BaseCommand.process STOP (counted do_work) (S fuel) w))
     = S (calls w)
  /\ calls (snd (CommandPy.BaseCommand.process OMIT (counted do_work) (S fuel) w))
     = S (calls w).
Proof.
  pose proof (Base_attempt_calls do_work w) as Hb.
  pose proof (CommandPy_attempt_calls do_work w) as Hc.
  split; [| split].
  - rewrite Base_process_drops, Base_do_process_step by lia.
    destruct (Base.BaseCommand.attempt (counted do_work) w)
      as [[r | f |] w']; cbn [snd] in *; try exact Hb.
    destruct (level r); [ | destruct strategy | ];
      unfold calls in *; cbn; exact Hb.
  - unfold CommandPy.BaseCommand.process.
    rewrite CommandPy_process_loop_step by lia.
    destruct (CommandPy.BaseCommand.attempt (counted do_work) w)
      as [[[r|] | f |] w']; cbn [snd] in *; try exact Hc.
    destruct (level r); unfold calls in *; cbn; exact Hc.
  - unfold CommandPy.BaseCommand.process.
    rewrite CommandPy_process_loop_step by lia.
    destruct (CommandPy.BaseCommand.attempt (counted do_work) w)
      as [[[r|] | f |] w']; cbn [snd] in *; try exact Hc.
    destruct (level r); unfold calls in *; cbn; exact Hc.
Qed.
End MoreAttempts.

Section CounterAccounting.
Context {St : Type}.
Variable strategy : ErrorStrategy.
Variable do_work : M St (option CommandResult).
Hypothesis leaves_counter : forall w, counter (snd (do_work w)) = counter w.

Lemma Base_attempt_counter w :
  counter (snd (Base.BaseCommand.attempt do_work w)) = counter w.
Proof.
  rewrite Base_attempt_spec. rewrite <- (leaves_counter w).
  destruct (do_work w) as [[[r|] | [r n | e | b] |] w']; reflexivity.
Qed.

Lemma CommandPy_attempt_counter w :
  counter (snd (CommandPy.BaseCommand.attempt do_work w)) = counter w.
Proof.
  rewrite CommandPy_attempt_spec. rewrite <- (leaves_counter w).
  destruct (do_work w) as [[[r|] | [r n | e | b] |] w']; reflexivity.
Qed.

Lemma Base_do_process_counter fuel iteration w :
  let out := Base.BaseCommand._do_process strategy do_work fuel iteration w in
  counter (snd out) = counter w + (if returned_ok (fst out) then 1 else 0).
Proof.
  cbn zeta. destruct fuel as [| fuel]; [cbn; lia |].
  destruct (Z_le_gt_dec iteration 3) as [Hle | Hgt].
  - rewrite Base_do_process_step by exact Hle.
    pose proof (Base_attempt_counter w) as Hc.
    destruct (Base.BaseCommand.attempt do_work w) as [[r | f |] w'];
      cbn [fst snd returned_ok] in *; try lia.
    destruct (level r) eqn:El; cbn [fst snd returned_ok]; rewrite ?El.
    + cbn. lia.
    + destruct strategy; cbn [fst snd returned_ok]; rewrite ?El; cbn; lia.
    + lia.
  - rewrite Base_do_process_beyond_cap by lia. cbn. lia.
Qed.

Lemma CommandPy_loop_counter fuel :
  forall result i w,
    match result with Some r => level r <> OK | None => True end ->
    let out := CommandPy.BaseCommand.process_loop strategy do_work fuel
                 result i w in
    counter (snd out) = counter w + (if returned_ok (fst out) then 1 else 0).
Proof.
  induction fuel as [| fuel IH]; intros result i w Hres; cbn zeta.
  - cbn. lia.
  - destruct (Z_le_gt_dec i 3) as [Hle | Hgt].
    + rewrite CommandPy_process_loop_step by exact Hle.
      pose proof (CommandPy_attempt_counter w) as Hc.
      destruct (CommandPy.BaseCommand.attempt do_work w)
        as [[[r|] | f |] w']; cbn [fst snd returned_ok] in *; try lia.
      destruct (level r) eqn:El; cbn [fst snd returned_ok]; rewrite ?El.
      * cbn. lia.
      * destruct strategy; cbn [fst snd returned_ok]; rewrite ?El; try lia.
        rewrite <- Hc. apply IH. cbn. congruence.
      * lia.
    + rewrite CommandPy_process_loop_exit by lia.
      cbn [fst snd returned_ok].
      destruct result as [r |]; cbn.
      * destruct (level r); try lia. congruence.
      * lia.
Qed.

(** X3.  The Counter counts successes only.  For a [_do_work] that
    leaves the Counter alone, one run of either engine raises it by
    exactly one when an OK result comes back, and leaves it unchanged in
    every other case: an ERROR or CRITICAL outcome, a fault, a retry. *)
Theorem counter_counts_ok_results (fuel : nat) (w : World St) :
  let base := Base.BaseCommand._do_process strategy do_work fuel 1 w in
  let cpy := CommandPy.BaseCommand.process strategy do_work fuel w in
  counter (snd base) = counter w + (if returned_ok (fst base) then 1 else 0)
  /\ counter (snd cpy) = counter w + (if returned_ok (fst cpy) then 1 else 0)
  /\ counter (snd (Base.BaseCommand.process strategy do_work fuel w))
     = counter (snd base).
Proof.
  cbn zeta. split; [| split].
  - apply Base_do_process_counter.
  - apply (CommandPy_loop_counter fuel None 1 w). exact I.
  - rewrite Base_process_drops.
    destruct (Base.BaseCommand._do_process strategy do_work fuel 1 w)
      as [[a | f |] w']; reflexivity.
Qed.
End CounterAccounting.

Lemma counter_counts_ok_results_witness :
  counter (snd (CommandPy.BaseCommand.process RESTART scripted 4
                  (fresh error_error_ok)))
  = counter (fresh error_error_ok)
    + (if returned_ok (fst (CommandPy.BaseCommand.process RESTART scripted 4
                              (fresh error_error_ok)))
       then 1 else 0).
Proof.
  apply (counter_counts_ok_results RESTART scripted).
  intros w. unfold scripted.
  destruct (ext w) as [[| o rest] n]; reflexivity.
Defined.

Section Termination.
Context {St : Type}.
Variable strategy : ErrorStrategy.
Variable do_work : M St (option CommandResult).
Hypothesis do_work_ends : forall w, fst (do_work w) <> OutOfFuel.

Lemma CommandPy_loop_ends fuel :
  forall result i w,
    4 <= Z.of_nat fuel + i ->
    fst (CommandPy.BaseCommand.process_loop strategy do_work (S fuel)
           result i w) <> OutOfFuel.
Proof.
  induction fuel as [| fuel IH]; intros result i w Hi.
  - rewrite CommandPy_process_loop_exit by lia. discriminate.
  - destruct (Z_le_gt_dec i 3) as [Hle | Hgt].
    + rewrite CommandPy_process_loop_step by exact Hle.
      rewrite CommandPy_attempt_spec.
      pose proof (do_work_ends w) as He.
      destruct (do_work w) as [[[r|] | [r n | e | b] |] w'];
        cbn [fst] in He; cbn [level caught CommandResult_init];
        try discriminate; try congruence.
      * destruct (level r); try discriminate.
        destruct strategy; try discriminate.
        apply IH. lia.
      * destruct strategy; try discriminate.
        apply IH. lia.
    + rewrite CommandPy_process_loop_exit by lia. discriminate.
Qed.

(** X4.  The engines end.  With a [_do_work] that ends, [process()] of
    command.py is through after at most four tests of its loop
    condition, and [process()] of command/base.py after one pass. *)
Theorem process_ends (fuel : nat) (w : World St) :
  fst (CommandPy.BaseCommand.process strategy do_work (4 + fuel) w)
  <> OutOfFuel
  /\ fst (Base.BaseCommand.process strategy do_work (1 + fuel) w)
     <> OutOfFuel.
Proof.
  split.
  - apply CommandPy_loop_ends. lia.
  - rewrite Base_process_drops.
    change (1 + fuel)%nat with (S fuel).
    rewrite Base_do_process_step by lia.
    rewrite Base_attempt_spec.
    pose proof (do_work_ends w) as He.
    destruct (do_work w) as [[[r|] | [r n | e | b] |] w']; cbn in *;
      try discriminate; try congruence.
    + destruct (level r); try discriminate.
      destruct strategy; discriminate.
    + destruct strategy; discriminate.
Qed.
End Termination.

Lemma process_ends_witness :
  fst (CommandPy.BaseCommand.process RESTART (@always_error unit) 4 (fresh tt))
  <> OutOfFuel
  /\ fst (Base.BaseCommand.process RESTART (@always_error unit) 1 (fresh tt))
     <> OutOfFuel.
Proof.
  apply (process_ends RESTART (@always_error unit)
           (fun w => ltac:(discriminate)) 0 (fresh tt)).
Defined.

(** ** Construction *)

Lemma lower_ascii_idempotent c : lower_ascii (lower_ascii c) = lower_ascii c.
Proof.
  destruct c as [[] [] [] [] [] [] [] []]; reflexivity.
Qed.

Lemma lower_idempotent s : lower (lower s) = lower s.
Proof.
  induction s as [| c s IH]; cbn; [reflexivity |].
  rewrite lower_ascii_idempotent, IH. reflexivity.
Qed.

Lemma ErrorStrategy_of_value_spec v st :
  ErrorStrategy_of_value v = Returns st <-> v = strategy_value st.
Proof.
  unfold ErrorStrategy_of_value.
  destruct (String.eqb_spec v "restart") as [-> | Hr];
    [destruct st; cbn; split; congruence |].
  destruct (String.eqb_spec v "stop") as [-> | Hs];
    [destruct st; cbn; split; congruence |].
  destruct (String.eqb_spec v "omit") as [-> | Ho];
    [destruct st; cbn; split; congruence |].
  split; [discriminate |].
  intros ->. destruct st; cbn in *; congruence.
Qed.

(** X5.  The [error_strategy] keyword.  Without it a command gets the
    stop strategy.  With it the constructor succeeds exactly when the
    lower-cased value is the value of a member of [ErrorStrategy], which
    is then the strategy of the command, so the letter case of the
    keyword does not matter; any other value makes the constructor raise
    [ValueError].  Both files agree. *)
Theorem error_strategy_keyword (n : option Z) :
  Base.BaseCommand.__init__ (mkKwargs n None) = Returns STOP
  /\ (forall v st,
        Base.BaseCommand.__init__ (mkKwargs n (Some v)) = Returns st
        <-> lower v = strategy_value st)
  /\ (forall st,
        Base.BaseCommand.__init__ (mkKwargs n (Some (strategy_value st)))
        = Returns st)
  /\ (forall v,
        Base.BaseCommand.__init__ (mkKwargs n (Some (lower v)))
        = Base.BaseCommand.__init__ (mkKwargs n (Some v)))
  /\ (forall v,
        (forall st, lower v <> strategy_value st) ->
        Base.BaseCommand.__init__ (mkKwargs n (Some v))
        = Raises (PyRaise (ValueError "not a valid ErrorStrategy")))
  /\ (forall kwargs,
        CommandPy.BaseCommand.__init__ kwargs = Base.BaseCommand.__init__ kwargs).
Proof.
  split; [reflexivity |].
  split; [intros v st; apply ErrorStrategy_of_value_spec |].
  split; [intros st; destruct st; reflexivity |].
  split.
  { intros v. unfold Base.BaseCommand.__init__. cbn [kw_error_strategy].
    rewrite lower_idempotent. reflexivity. }
  split; [| reflexivity].
  intros v H. unfold Base.BaseCommand.__init__. cbn [kw_error_strategy].
  unfold ErrorStrategy_of_value.
  destruct (String.eqb_spec (lower v) "restart") as [E | _];
    [exfalso; apply (H RESTART); exact E |].
  destruct (String.eqb_spec (lower v) "stop") as [E | _];
    [exfalso; apply (H STOP); exact E |].
  destruct (String.eqb_spec (lower v) "omit") as [E | _];
    [exfalso; apply (H OMIT); exact E |].
  reflexivity.
Qed.

Lemma error_strategy_keyword_witness :
  Base.BaseCommand.__init__ (mkKwargs None (Some "ReStArT")) = Returns RESTART
  /\ Base.BaseCommand.__init__ (mkKwargs None (Some "retry"))
     = Raises (PyRaise (ValueError "not a valid ErrorStrategy")).
Proof.
  destruct (error_strategy_keyword None) as (_ & Hiff & _ & _ & Hbad & _).
  split.
  - apply Hiff. reflexivity.
  - apply Hbad. intros st. destruct st; discriminate.
Defined.

(** X6.  The [number_of_works] keyword breaks construction.  A command
    made by a constructor of command/base.py has no [number_of_works]
    attribute, so a cyclic command around it, or a parallel command with
    it as first child, cannot be built with that keyword: the
    constructor reads the attribute and raises [AttributeError].
    Without the keyword, and with the keyword and no children, the
    parallel command is built. *)
Theorem number_of_works_keyword_raises {St : Type} (kwargs : Kwargs)
    (do_work : ErrorStrategy -> nat -> M St (option CommandResult))
    (gnw : Res Z) (c : Obj.Command St) (n cycles : Z) (s : option string) :
  Base.BaseCommand.instance kwargs do_work gnw = Returns c ->
  Base.CyclicCommand c cycles (mkKwargs (Some n) s) = Raises no_number_of_works
  /\ (forall schedule rest,
        Base.ParallelCommand schedule (c :: rest) (mkKwargs (Some n) s)
        = Raises no_number_of_works)
  /\ (forall schedule,
        raised (Base.ParallelCommand schedule (@nil (Obj.Command St))
                  (mkKwargs (Some n) None))
        = false)
  /\ (forall schedule rest,
        raised (Base.ParallelCommand schedule (c :: rest) no_kwargs) = false).
Proof.
  intros H. apply instance_number_of_works in H. destruct H as [Hn _].
  unfold Base.CyclicCommand, Base.ParallelCommand.
  cbn [kw_number_of_works kw_error_strategy no_kwargs sum_number_of_works].
  unfold getattr_number_of_works. rewrite Hn.
  repeat split; reflexivity.
Qed.

Lemma number_of_works_keyword_raises_witness :
  exists leaf,
    Base.ShellCommand quiet_Popen ["true"] None no_kwargs = Returns leaf
    /\ Base.CyclicCommand leaf 3 (mkKwargs (Some 3) None)
       = Raises no_number_of_works.
Proof.
  eexists. split; [reflexivity |].
  apply (number_of_works_keyword_raises no_kwargs
           (fun _ _ => Shared.ShellCommand._do_work quiet_Popen ["true"] None)
           Base.BaseCommand.get_number_of_works _ 3 3 None).
  reflexivity.
Defined.

Section GroupWorks.
Context {St : Type}.

Lemma sum_number_of_works_acc (commands : list (Obj.Command St)) :
  forall acc,
    sum_number_of_works commands acc
    = Res_bind (sum_number_of_works commands 0) (fun t => Returns (acc + t)).
Proof.
  induction commands as [| c rest IH]; intros acc.
  - cbn. f_equal. lia.
  - cbn [sum_number_of_works].
    destruct (getattr_number_of_works c) as [n | f |]; cbn [Res_bind];
      try reflexivity.
    rewrite (IH (acc + n)), (IH (0 + n)).
    destruct (sum_number_of_works rest 0) as [t | f |]; cbn [Res_bind];
      try reflexivity.
    f_equal. lia.
Qed.

Lemma sum_number_of_works_app (l1 l2 : list (Obj.Command St)) :
  forall acc,
    sum_number_of_works (l1 ++ l2) acc
    = Res_bind (sum_number_of_works l1 acc) (sum_number_of_works l2).
Proof.
  induction l1 as [| c rest IH]; intros acc.
  - reflexivity.
  - cbn [app sum_number_of_works].
    destruct (getattr_number_of_works c) as [n | f |]; cbn [Res_bind];
      try reflexivity.
    apply IH.
Qed.

(** X7.  [GroupCommand.get_number_of_works] answers with a number
    exactly when every child has the [number_of_works] attribute, the
    number being the sum of the attributes (0 for a group without
    children); as soon as one child lacks the attribute the call raises
    [AttributeError]. *)
Theorem group_number_of_works (commands : list (Obj.Command St)) :
  ((forall c, In c commands -> Obj.number_of_works c <> None) ->
   Shared.GroupCommand.get_number_of_works commands
   = Returns (declared_works commands))
  /\ ((exists c, In c commands /\ Obj.number_of_works c = None) ->
      Shared.GroupCommand.get_number_of_works commands
      = Raises no_number_of_works)
  /\ Shared.GroupCommand.get_number_of_works (@nil (Obj.Command St))
     = Returns 0.
Proof.
  unfold Shared.GroupCommand.get_number_of_works.
  split; [| split; [| reflexivity]].
  - induction commands as [| c rest IH]; intros H; [reflexivity |].
    cbn [sum_number_of_works declared_works fold_right].
    unfold getattr_number_of_works.
    destruct (Obj.number_of_works c) as [n |] eqn:E;
      [| exfalso; apply (H c); [left; reflexivity | exact E]].
    cbn [Res_bind]. rewrite sum_number_of_works_acc.
    rewrite IH by (intros c' Hc'; apply H; right; exact Hc').
    reflexivity.
  - induction commands as [| c rest IH]; intros (c' & Hin & Hc');
      [destruct Hin |].
    cbn [sum_number_of_works]. unfold getattr_number_of_works.
    destruct (Obj.number_of_works c) as [n |] eqn:E; [| reflexivity].
    cbn [Res_bind]. rewrite sum_number_of_works_acc.
    destruct Hin as [-> | Hin]; [congruence |].
    rewrite IH by (exists c'; split; assumption). reflexivity.
Qed.

(** X8.  [add_command] puts the new child last: the work count of the
    group afterwards is the count before plus the attribute of the new
    child, and it raises when either of the two does; [set_commands]
    makes the count that of the new list alone. *)
Theorem add_command_number_of_works (commands : list (Obj.Command St))
    (command : Obj.Command St) :
  Shared.GroupCommand.get_number_of_works (add_command commands command)
  = Res_bind (Shared.GroupCommand.get_number_of_works commands) (fun t =>
      Res_bind (getattr_number_of_works command) (fun n => Returns (t + n)))
  /\ (forall others,
        Shared.GroupCommand.get_number_of_works (set_commands commands others)
        = Shared.GroupCommand.get_number_of_works others).
Proof.
  split; [| reflexivity].
  unfold Shared.GroupCommand.get_number_of_works, add_command.
  rewrite sum_number_of_works_app.
  destruct (sum_number_of_works commands 0) as [t | f |]; reflexivity.
Qed.
End GroupWorks.

Lemma group_number_of_works_witness :
  Shared.GroupCommand.get_number_of_works [counted_leaf 2; counted_leaf 5]
  = Returns 7
  /\ Shared.GroupCommand.get_number_of_works [counted_leaf 2; ok_leaf]
     = Raises no_number_of_works.
Proof.
  split.
  - apply (proj1 (group_number_of_works [counted_leaf 2; counted_leaf 5])).
    intros c [<- | [<- | []]]; discriminate.
  - apply (proj1 (proj2 (group_number_of_works [counted_leaf 2; ok_leaf]))).
    exists ok_leaf. split; [right; left; reflexivity | reflexivity].
Defined.

(** [bind] only looks at its continuation where it is called. *)
Lemma bind_cong_r {St A B : Type} (m : M St A) (k k' : A -> M St B) w :
  (forall a w', k a w' = k' a w') -> bind m k w = bind m k' w.
Proof.
  intros H. unfold bind. destruct (m w) as [[a | f |] w']; auto.
Qed.

(** ** More about the sequential group *)

Section GroupMore.
Context {St : Type}.
Variable self_id : nat.
Variable reset_callback :
  option (Obj.Command St -> CommandResult -> M St (option (Obj.Command St))).
Variable error_strategy : ErrorStrategy.

(** X9.  A group without children: [_do_work] returns [None] at once
    and touches nothing, so for command/base.py the group counts as one
    successful work, and in command.py [process()] raises on the missing
    result. *)
Theorem empty_group (fuel k : nat) (w : World St) :
  let do_work :=
    Shared.GroupCommand._do_work self_id [] reset_callback error_strategy
      (S (S fuel)) in
  do_work w = (Returns None, w)
  /\ Base.BaseCommand.process error_strategy do_work (S k) w
     = (Returns None, snd (Counter_increment w))
  /\ CommandPy.BaseCommand.process error_strategy do_work (S k) w
     = (Raises none_level_fault, w).
Proof.
  repeat split; reflexivity.
Qed.

Lemma group_loop_returns_not (c0 : Obj.Command St) rest fuel :
  forall w a,
    fst (Shared.GroupCommand.while_loop (c0 :: rest) fuel 0 w) <> Returns a.
Proof.
  induction fuel as [| fuel IH]; intros w a.
  - discriminate.
  - rewrite group_loop_step.
    destruct (Obj.process c0 fuel w) as [[x | f |] w']; cbn [fst];
      [apply IH | discriminate | discriminate].
Qed.

(** One pass of [_do_work], by how the loop ended. *)
Lemma group_do_work_step (c0 : Obj.Command St) rest fuel w :
  Shared.GroupCommand._do_work self_id (c0 :: rest) reset_callback
    error_strategy (S fuel) w =
  match Shared.GroupCommand.while_loop (c0 :: rest) fuel 0 w with
  | (Returns _, w1) => (Returns None, w1)
  | (Raises (RunnerRuntimeError r n), w1) =>
      (match reset_callback with
       | Some callback =>
           command <- callback c0 r ;;
           match command with
           | Some c' => Obj.process c' fuel ;;; ret tt
           | None => ret tt
           end
       | None => ret tt
       end ;;;
       match error_strategy with
       | OMIT => ret None
       | STOP => raise (RunnerRuntimeError r n)
       | RESTART =>
           bump_iteration self_id ;;;
           Shared.GroupCommand._do_work self_id (c0 :: rest) reset_callback
             error_strategy fuel ;;;
           ret None
       end) w1
  | (Raises f, w1) => (Raises f, w1)
  | (OutOfFuel, w1) => (OutOfFuel, w1)
  end.
Proof.
  cbn [Shared.GroupCommand._do_work].
  unfold try_except at 1. unfold bind at 1.
  destruct (Shared.GroupCommand.while_loop (c0 :: rest) fuel 0 w)
    as [[x | [r n | e | b] |] w1]; reflexivity.
Qed.

(** X10.  How a group can return.  [_do_work] of a group returns
    normally only when the group has no children, or when its strategy
    is omit (and then a child has raised); what it returns is [None].
    Under stop and under restart a group with children never completes
    [_do_work]: it raises or keeps running. *)
Theorem group_returns_only_under_omit
    (commands : list (Obj.Command St)) (fuel : nat) :
  forall (w : World St) (a : option CommandResult),
    fst (Shared.GroupCommand._do_work self_id commands reset_callback
           error_strategy fuel w) = Returns a ->
    a = None /\ (commands = [] \/ error_strategy = OMIT).
Proof.
  destruct commands as [| c0 rest].
  - intros w a H. destruct fuel as [| [| fuel]]; try discriminate.
    cbn in H. injection H as <-. auto.
  - induction fuel as [| fuel IH]; intros w a H; [discriminate |].
    rewrite group_do_work_step in H.
    pose proof (group_loop_returns_not c0 rest fuel w) as Hloop.
    destruct (Shared.GroupCommand.while_loop (c0 :: rest) fuel 0 w)
      as [[x | [r n | e | b] |] w1]; cbn [fst] in *;
      [exfalso; apply (Hloop x); reflexivity | | discriminate
      | discriminate | discriminate].
    unfold bind at 1 in H.
    destruct (match reset_callback with
              | Some callback =>
                  command <- callback c0 r ;;
                  match command with
                  | Some c' => Obj.process c' fuel ;;; ret tt
                  | None => ret tt
                  end
              | None => ret tt
              end w1) as [[u | f |] w2]; try discriminate.
    destruct error_strategy; try discriminate.
    + exfalso. unfold bind, bump_iteration in H.
      match type of H with
      | context [Shared.GroupCommand._do_work ?i ?c ?cb ?s fuel ?w'] =>
          destruct (Shared.GroupCommand._do_work i c cb s fuel w')
            as [[b | f |] w3] eqn:E; try discriminate;
          destruct (IH w' b ltac:(rewrite E; reflexivity)) as [_ [? | ?]];
          discriminate
      end.
    + cbn in H. injection H as <-. auto.
Qed.

Lemma group_loop_rest_irrelevant (c0 : Obj.Command St) rest rest' fuel :
  forall w,
    Shared.GroupCommand.while_loop (c0 :: rest) fuel 0 w
    = Shared.GroupCommand.while_loop (c0 :: rest') fuel 0 w.
Proof.
  induction fuel as [| fuel IH]; intros w; [reflexivity |].
  rewrite !group_loop_step.
  destruct (Obj.process c0 fuel w) as [[x | f |] w']; auto.
Qed.

(** X11.  Only the first child counts.  Whatever stands behind the
    first child of a group has no influence on what [_do_work] does:
    two groups that differ only there behave alike in every world. *)
Theorem group_ignores_later_children (c0 : Obj.Command St)
    (rest rest' : list (Obj.Command St)) (fuel : nat) :
  forall w : World St,
    Shared.GroupCommand._do_work self_id (c0 :: rest) reset_callback
      error_strategy fuel w
    = Shared.GroupCommand._do_work self_id (c0 :: rest') reset_callback
        error_strategy fuel w.
Proof.
  induction fuel as [| fuel IH]; intros w; [reflexivity |].
  rewrite !group_do_work_step.
  rewrite (group_loop_rest_irrelevant c0 rest rest').
  destruct (Shared.GroupCommand.while_loop (c0 :: rest') fuel 0 w)
    as [[x | [r n | e | b] |] w1]; try reflexivity.
  apply bind_cong_r. intros _ w2.
  destruct error_strategy; try reflexivity.
  apply bind_cong_r. intros _ w3.
  unfold bind. rewrite IH. reflexivity.
Qed.
End GroupMore.

Lemma group_returns_only_under_omit_witness :
  fst (Shared.GroupCommand._do_work 0 [RuntimeExceptionCommand] None OMIT 3
         (fresh tt)) = Returns None
  /\ None = (@None CommandResult)
     /\ ([RuntimeExceptionCommand] = [] \/ OMIT = OMIT).
Proof.
  split; [reflexivity |].
  apply (group_returns_only_under_omit 0 None OMIT [RuntimeExceptionCommand]
           3 (fresh tt) None).
  reflexivity.
Defined.

Section GroupFaults.
Context {St : Type}.
Variable self_id : nat.
Variable c0 : Obj.Command St.
Variable rest : list (Obj.Command St).

(** X12.  The group's own strategy decides about a child's fault.  When
    [process()] of the first child raises [RunnerRuntimeError], a group
    of command/base.py built with the stop strategy raises that very
    fault out of its own [process()], result and retry count unchanged;
    built with the omit strategy it swallows the fault, returns, and is
    counted as one successful work.  In command.py the swallowed fault
    leaves [_do_work] without a result, on which [process()] raises
    [AttributeError]. *)
Theorem group_strategy_on_child_fault (fuel : nat) (w w1 : World St)
    (r : CommandResult) (n : Z) :
  Obj.process c0 fuel w = (Raises (RunnerRuntimeError r n), w1) ->
  (forall g,
      Base.GroupCommand self_id (Some (c0 :: rest)) None
        (mkKwargs None (Some "stop")) = Returns g ->
      Obj.process g (S (S fuel)) w = (Raises (RunnerRuntimeError r n), w1))
  /\ (forall g,
        Base.GroupCommand self_id (Some (c0 :: rest)) None
          (mkKwargs None (Some "omit")) = Returns g ->
        Obj.process g (S (S fuel)) w
        = (Returns None, snd (Counter_increment w1)))
  /\ CommandPy.BaseCommand.process OMIT
       (Shared.GroupCommand._do_work self_id (c0 :: rest) None OMIT
          (S (S fuel))) (S (S fuel)) w
     = (Raises none_level_fault, w1).
Proof.
  intros H.
  pose proof (group_handles_fault self_id c0 rest None STOP fuel w w1 r n H)
    as Hstop.
  pose proof (group_handles_fault self_id c0 rest None OMIT fuel w w1 r n H)
    as Homit.
  split; [| split].
  - intros g Hg. cbn in Hg. injection Hg as <-. cbn [Obj.process].
    rewrite Base_process_drops, Base_do_process_step by lia.
    rewrite Base_attempt_spec, Hstop. reflexivity.
  - intros g Hg. cbn in Hg. injection Hg as <-. cbn [Obj.process].
    rewrite Base_process_drops, Base_do_process_step by lia.
    rewrite Base_attempt_spec, Homit. reflexivity.
  - unfold CommandPy.BaseCommand.process.
    rewrite CommandPy_process_loop_step by lia.
    rewrite CommandPy_attempt_spec, Homit. reflexivity.
Qed.

(** X13.  The reset hook.  When [process()] of the first child raises
    [RunnerRuntimeError] and the hook, called with that child and the
    result the fault carries, returns a command, that command is
    processed once.  If it raises, its fault leaves [_do_work] in place
    of the original one, whatever the strategy of the group, omit
    included; if it returns, what it returned is dropped and the
    strategy of the group decides about the original fault. *)
Theorem group_reset_hook
    (callback : Obj.Command St -> CommandResult -> M St (option (Obj.Command St)))
    (c' : Obj.Command St) (fuel : nat) (w w1 w2 w3 : World St)
    (r : CommandResult) (n : Z) :
  Obj.process c0 fuel w = (Raises (RunnerRuntimeError r n), w1) ->
  callback c0 r w1 = (Returns (Some c'), w2) ->
  (forall f strategy,
      Obj.process c' (S fuel) w2 = (Raises f, w3) ->
      Shared.GroupCommand._do_work self_id (c0 :: rest) (Some callback)
        strategy (S (S fuel)) w = (Raises f, w3))
  /\ (forall x,
        Obj.process c' (S fuel) w2 = (Returns x, w3) ->
        Shared.GroupCommand._do_work self_id (c0 :: rest) (Some callback)
          OMIT (S (S fuel)) w = (Returns None, w3)
        /\ Shared.GroupCommand._do_work self_id (c0 :: rest) (Some callback)
             STOP (S (S fuel)) w = (Raises (RunnerRuntimeError r n), w3)).
Proof.
  intros H Hcb. split.
  - intros f strategy Hc'.
    rewrite (group_handles_fault self_id c0 rest (Some callback) strategy
               fuel w w1 r n H).
    unfold bind. rewrite Hcb, Hc'. reflexivity.
  - intros x Hc'. split.
    + rewrite (group_handles_fault self_id c0 rest (Some callback) OMIT
                 fuel w w1 r n H).
      unfold bind. rewrite Hcb, Hc'. reflexivity.
    + rewrite (group_handles_fault self_id c0 rest (Some callback) STOP
                 fuel w w1 r n H).
      unfold bind. rewrite Hcb, Hc'. reflexivity.
Qed.

End GroupFaults.

Lemma group_strategy_on_child_fault_witness :
  Shared.GroupCommand._do_work 0 [RuntimeExceptionCommand] None OMIT 3
    (fresh tt) = (Returns None, fresh tt)
  /\ CommandPy.BaseCommand.process OMIT
       (Shared.GroupCommand._do_work 0 [RuntimeExceptionCommand] None OMIT 3)
       3 (fresh tt)
     = (Raises none_level_fault, fresh tt).
Proof.
  split; [reflexivity |].
  apply (group_strategy_on_child_fault 0 RuntimeExceptionCommand [] 1
           (fresh tt) (fresh tt) (new_error None None) 5).
  reflexivity.
Defined.

Lemma group_reset_hook_witness :
  Shared.GroupCommand._do_work 0 [RuntimeExceptionCommand]
    (Some (fun _ _ => ret (Some RuntimeExceptionCommand))) OMIT 3 (fresh tt)
  = (Raises (RunnerRuntimeError (new_error None None) 5), fresh tt).
Proof.
  apply (proj1 (group_reset_hook 0 RuntimeExceptionCommand []
                  (fun _ _ => ret (Some RuntimeExceptionCommand))
                  RuntimeExceptionCommand 1
                  (fresh tt) (fresh tt) (fresh tt) (fresh tt)
                  (new_error None None) 5 eq_refl eq_refl)).
  reflexivity.
Defined.

(** ** The cyclic command *)

Section CyclicFacts.
Context {St : Type}.
Variable command : Obj.Command St.
Variable fuel : nat.

(** The world one [process()] of the child leaves. *)
Let after (w : World St) : World St := snd (Obj.process command fuel w).

Let body : M St unit := Obj.process command fuel ;;; ret tt.

Lemma cyclic_body_returns w :
  (exists a, fst (Obj.process command fuel w) = Returns a) ->
  body w = (Returns tt, after w).
Proof.
  intros [a H]. unfold body, after, bind, ret.
  destruct (Obj.process command fuel w) as [[x | f |] w']; cbn in *;
    try discriminate.
  reflexivity.
Qed.

Lemma cyclic_body_raises w f :
  fst (Obj.process command fuel w) = Raises f ->
  body w = (Raises f, after w).
Proof.
  intros H. unfold body, after, bind, ret.
  destruct (Obj.process command fuel w) as [[x | g |] w']; cbn in *;
    try discriminate.
  injection H as ->. reflexivity.
Qed.

Lemma for_range_runs k :
  forall n w,
    (forall j, (j < k)%nat ->
       exists a, fst (Obj.process command fuel (Nat.iter j after w)) = Returns a) ->
    Shared.CyclicCommand.for_range (k + n) body w
    = Shared.CyclicCommand.for_range n body (Nat.iter k after w).
Proof.
  induction k as [| k IH]; intros n w H; [reflexivity |].
  cbn [Nat.add Shared.CyclicCommand.for_range]. unfold bind at 1.
  rewrite (cyclic_body_returns w) by (apply (H 0%nat); lia).
  rewrite IH.
  - rewrite Nat.iter_succ_r. reflexivity.
  - intros j Hj. rewrite <- Nat.iter_succ_r. apply H. lia.
Qed.

(** X15.  A cyclic command runs its child exactly [cycles] times.  When
    [process()] of the child returns each time, [_do_work] returns
    [None] and the world is the one [cycles] calls in a row leave; with
    [cycles] at zero or below the child is not run at all. *)
Theorem cyclic_runs_child_cycles_times (cycles : Z) (w : World St) :
  (forall j, (j < Z.to_nat cycles)%nat ->
     exists a, fst (Obj.process command fuel (Nat.iter j after w)) = Returns a) ->
  Shared.CyclicCommand._do_work command cycles fuel w
  = (Returns None, Nat.iter (Z.to_nat cycles) after w)
  /\ (cycles <= 0 ->
      Shared.CyclicCommand._do_work command cycles fuel w = (Returns None, w)).
Proof.
  intros H.
  assert (E : Shared.CyclicCommand._do_work command cycles fuel w
              = (Returns None, Nat.iter (Z.to_nat cycles) after w)).
  { unfold Shared.CyclicCommand._do_work. fold body. unfold bind at 1.
    rewrite <- (Nat.add_0_r (Z.to_nat cycles)) at 1.
    rewrite (for_range_runs (Z.to_nat cycles) 0 w H). reflexivity. }
  split; [exact E |].
  intros Hc. rewrite E.
  replace (Z.to_nat cycles) with 0%nat by lia. reflexivity.
Qed.

(** X16.  A fault ends the cycles.  When [process()] of the child
    returns [k] times and raises on the next call, with cycles still to
    go, [_do_work] raises that fault right there: the child is not run
    again. *)
Theorem cyclic_stops_at_fault (cycles : Z) (k : nat) (w : World St)
    (f : Fault) :
  (k < Z.to_nat cycles)%nat ->
  (forall j, (j < k)%nat ->
     exists a, fst (Obj.process command fuel (Nat.iter j after w)) = Returns a) ->
  fst (Obj.process command fuel (Nat.iter k after w)) = Raises f ->
  Shared.CyclicCommand._do_work command cycles fuel w
  = (Raises f, after (Nat.iter k after w)).
Proof.
  intros Hk H Hf.
  unfold Shared.CyclicCommand._do_work. fold body. unfold bind at 1.
  replace (Z.to_nat cycles) with (k + S (Z.to_nat cycles - S k))%nat by lia.
  rewrite (for_range_runs k _ w H).
  cbn [Shared.CyclicCommand.for_range]. unfold bind at 1.
  rewrite (cyclic_body_raises _ f Hf). reflexivity.
Qed.
End CyclicFacts.

Lemma cyclic_runs_child_cycles_times_witness :
  Shared.CyclicCommand._do_work (logging_child 7) 3 1 (fresh [])
  = (Returns None,
     Nat.iter 3 (fun w => snd (Obj.process (logging_child 7) 1 w)) (fresh [])).
Proof.
  apply (proj1 (cyclic_runs_child_cycles_times (logging_child 7) 1 3 (fresh [])
                  (fun j _ => ex_intro _ None eq_refl))).
Defined.

Lemma cyclic_stops_at_fault_witness :
  Shared.CyclicCommand._do_work RuntimeExceptionCommand 4 1 (fresh tt)
  = (Raises (RunnerRuntimeError (new_error None None) 5), fresh tt).
Proof.
  apply (cyclic_stops_at_fault RuntimeExceptionCommand 1 4 0 (fresh tt)
           (RunnerRuntimeError (new_error None None) 5)).
  - cbn. lia.
  - intros j Hj. lia.
  - reflexivity.
Defined.



(** ** The composites under the engine of command.py *)

Section NoneOnly.
Context {St : Type}.
Variable strategy : ErrorStrategy.
Variable do_work : M St (option CommandResult).
Hypothesis none_only : forall w a, fst (do_work w) = Returns a -> a = None.

Lemma CommandPy_loop_none_only fuel :
  forall result i w a,
    match result with Some r => level r = ERROR | None => i <= 3 end ->
    fst (CommandPy.BaseCommand.process_loop strategy do_work fuel result i w)
    = Returns a ->
    exists r, a = Some r /\ level r = ERROR.
Proof.
  induction fuel as [| fuel IH]; intros result i w a Hres H; [discriminate |].
  destruct (Z_le_gt_dec i 3) as [Hle | Hgt].
  - rewrite CommandPy_process_loop_step in H by exact Hle.
    rewrite CommandPy_attempt_spec in H.
    pose proof (none_only w) as Hn.
    destruct (do_work w) as [[[r|] | [r n | e | b] |] w']; cbn [fst] in *;
      try discriminate.
    + specialize (Hn (Some r) eq_refl). discriminate.
    + cbn [level caught CommandResult_init] in H.
      destruct strategy.
      * eapply IH; [| exact H]. reflexivity.
      * injection H as <-. eexists. split; reflexivity.
      * injection H as <-. eexists. split; reflexivity.
  - rewrite CommandPy_process_loop_exit in H by lia.
    destruct result as [r |]; [| lia].
    injection H as <-. eauto.
Qed.

Lemma CommandPy_process_none_only fuel w a :
  fst (CommandPy.BaseCommand.process strategy do_work fuel w) = Returns a ->
  exists r, a = Some r /\ level r = ERROR.
Proof.
  apply CommandPy_loop_none_only. lia.
Qed.
End NoneOnly.

Lemma bind_ret_none_only {St A : Type} (m : M St A) w (a : option CommandResult) :
  fst ((m ;;; ret None) w) = Returns a -> a = None.
Proof.
  unfold bind, ret. destruct (m w) as [[x | f |] w']; cbn; try discriminate.
  intros H. injection H as <-. reflexivity.
Qed.

(** X18.  No composite of command.py can succeed.  [_do_work] of a
    group, a parallel command, a cyclic command and a thread command
    returns nothing when it returns, and command.py has no replacement
    for a missing result: whenever [process()] of such a command hands a
    result back, it is an ERROR result, made of a fault caught around
    [_do_work]; the Counter never counts the composite. *)
Theorem CommandPy_composites_never_ok {St : Type} (strategy : ErrorStrategy)
    (fuel k : nat) (w : World St) (a : option CommandResult) :
  (forall id commands callback group_strategy,
      fst (CommandPy.BaseCommand.process strategy
             (Shared.GroupCommand._do_work id commands callback
                group_strategy fuel) k w) = Returns a ->
      exists r, a = Some r /\ level r = ERROR)
  /\ (forall commands schedule,
        fst (CommandPy.BaseCommand.process strategy
               (Shared.ParallelCommand._do_work commands schedule fuel) k w)
        = Returns a ->
        exists r, a = Some r /\ level r = ERROR)
  /\ (forall command cycles,
        fst (CommandPy.BaseCommand.process strategy
               (Shared.CyclicCommand._do_work command cycles fuel) k w)
        = Returns a ->
        exists r, a = Some r /\ level r = ERROR)
  /\ (forall cmd,
        fst (CommandPy.BaseCommand.process strategy
               (CommandPy_ThreadCommand_do_work cmd) k w) = Returns a ->
        exists r, a = Some r /\ level r = ERROR).
Proof.
  repeat split; intros; eapply CommandPy_process_none_only;
    try eassumption; clear; intros w' a' H.
  - eapply group_returns_only_under_omit. exact H.
  - eapply bind_ret_none_only. exact H.
  - eapply bind_ret_none_only. exact H.
  - unfold CommandPy_ThreadCommand_do_work in H.
    destruct (Base.ThreadCommand.needs cmd); cbn in H; try discriminate.
    injection H as <-. reflexivity.
Qed.

Lemma CommandPy_composites_never_ok_witness :
  fst (CommandPy.BaseCommand.process STOP
         (Shared.CyclicCommand._do_work none_child 2 1) 1 (fresh tt))
  = Returns (Some (caught (AttributeError
                             "'NoneType' object has no attribute 'level'")))
  /\ exists r,
       Some (caught (AttributeError
                       "'NoneType' object has no attribute 'level'")) = Some r
       /\ level r = ERROR.
Proof.
  split; [reflexivity |].
  destruct (CommandPy_composites_never_ok STOP 1 1 (fresh tt)
              (Some (caught (AttributeError
                               "'NoneType' object has no attribute 'level'"))))
    as (_ & _ & Hc & _).
  apply (Hc none_child 2). reflexivity.
Defined.

(** ** Logging *)

Section LoggingFacts.
Import LoggingModel.

Lemma str_format_plain template :
  forall args, plain template = true -> str_format template args = Some template.
Proof.
  induction template as [| c rest IH]; intros args H; [reflexivity |].
  cbn [plain] in H. apply andb_true_iff in H. destruct H as [Hc Hr].
  apply negb_true_iff, orb_false_iff in Hc. destruct Hc as [Ho Hcl].
  assert (E : str_format (String c rest) args
              = option_map (String c) (str_format rest args)).
  { cbn [str_format].
    destruct c as [[] [] [] [] [] [] [] []]; try discriminate;
      destruct rest as [| c' rest']; try reflexivity;
      rewrite ?Ho, ?Hcl; reflexivity. }
  rewrite E, IH by exact Hr. reflexivity.
Qed.

(** X19.  What command/base.py logs.  [_format_log] applies
    [str.format] to a template without replacement fields, so it
    yields the template itself whatever the class, the count and the
    message are: every record [_log] of command/base.py hands to the
    logger has the text "Class: %s, Work: %d: %s".  [_log] of command.py
    hands over the message. *)
Theorem base_log_text_is_template (class_name : string) (count level : Z)
    (message : string) (self self' : Attrs) (records : list LogCall) :
  BaseLogging._format_log class_name count message = Some log_template
  /\ (BaseLogging._log class_name count self level message
      = Some (self', records) ->
      forall record, In record records -> text record = log_template)
  /\ (CommandPyLogging._log self level message = Some (self', records) ->
      forall record, In record records -> text record = message).
Proof.
  assert (F : BaseLogging._format_log class_name count message
              = Some log_template)
    by (apply str_format_plain; reflexivity).
  split; [exact F |]. split.
  - unfold BaseLogging._log, emit. rewrite F.
    destruct (logger self) as [name |];
      [| destruct (truthy (logger_name self));
         [destruct (logger_name self) as [name |] |]];
      cbn [log_level]; destruct (log_level self <=? level);
      intros H; injection H as <- <-; intros record Hin;
      try destruct Hin as [<- | []]; try destruct Hin; reflexivity.
  - unfold CommandPyLogging._log, emit.
    destruct (logger self) as [name |];
      [| destruct (truthy (logger_name self));
         [destruct (logger_name self) as [name |] |]];
      cbn [log_level]; destruct (log_level self <=? level);
      intros H; injection H as <- <-; intros record Hin;
      try destruct Hin as [<- | []]; try destruct Hin; reflexivity.
Qed.

(** X20.  When [_log] speaks.  In both files [_log] hands a record to
    the logger exactly when the command has a logger (one fetched
    before, or a [logger_name] that is neither absent nor empty) and its
    [log_level] is not above the level of the message; it hands over at
    most one record and never changes [log_level] or [logger_name]. *)
Theorem log_threshold (class_name : string) (count level : Z)
    (message : string) (self : Attrs) :
  let enabled :=
    (match logger self with Some _ => true | None => truthy (logger_name self) end) in
  let speaks := (enabled && (log_level self <=? level))%bool in
  (exists self' records,
      BaseLogging._log class_name count self level message
      = Some (self', records)
      /\ List.length records = (if speaks then 1 else 0)%nat
      /\ log_level self' = log_level self
      /\ logger_name self' = logger_name self)
  /\ (exists self' records,
        CommandPyLogging._log self level message = Some (self', records)
        /\ List.length records = (if speaks then 1 else 0)%nat
        /\ log_level self' = log_level self
        /\ logger_name self' = logger_name self).
Proof.
  cbn zeta.
  assert (F : BaseLogging._format_log class_name count message
              = Some log_template)
    by (apply str_format_plain; reflexivity).
  unfold BaseLogging._log, CommandPyLogging._log, emit. rewrite F.
  destruct (logger self) as [name |];
    [| destruct (logger_name self) as [[| c name] |] eqn:En ];
    cbn [truthy log_level andb];
    destruct (log_level self <=? level); cbn [andb];
    split; do 2 eexists; repeat split; try reflexivity;
    try exact En; try (symmetry; exact En).
Qed.
End LoggingFacts.

Lemma base_log_text_is_template_witness :
  BaseLogging._log "ShellCommand" 2
    (LoggingModel.__init__ None (Some "runner")) 40
    "Runner stoped due to error"
  = Some (LoggingModel.mkAttrs (Some "runner") 20 (Some "runner"),
          [LoggingModel.mkLogCall "runner" 40 log_template])
  /\ LoggingModel.text (LoggingModel.mkLogCall "runner" 40 log_template)
     = log_template.
Proof.
  split; [reflexivity |].
  apply (proj1 (proj2 (base_log_text_is_template "ShellCommand" 2 40
                         "Runner stoped due to error"
                         (LoggingModel.__init__ None (Some "runner"))
                         (LoggingModel.mkAttrs (Some "runner") 20 (Some "runner"))
                         [LoggingModel.mkLogCall "runner" 40 log_template]))
           eq_refl _ (or_introl eq_refl)).
Defined.
